(** * Windows AI agent: intent recognition and the code sandbox

    A shallow embedding of [src/core/intent_recognition.py] (class
    [IntentRecognizer]) and [src/utils/code_executor.py] (classes
    [SafeExecutionEnvironment], [CodeValidator] and [CodeExecutor]).

    Python library calls whose code is not part of the repository
    ([int], [float], [re], [ast.parse], [json.dumps], [exec], ...) are
    interfaces ([Intent.Runtime], [Sandbox.Python]); every theorem holds
    for all their implementations.  Small instances at the end of each
    module evaluate the definitions on concrete inputs.

    Conventions: Python [str] is [string] (ASCII); a [dict] that is only
    looked up is a [gmap], one that is iterated for its order is an
    association list; a raised exception is [Raise e] in [result]; the
    confidence score, a Python float, is computed in exact rational
    arithmetic ([Q]). *)

From Stdlib Require Import ZArith QArith Qminmax String Ascii List Lia DecimalString.
From stdpp Require Import base gmap strings list.

Open Scope string_scope.

(** ** Python strings *)

Module Str.

Definition is_upper (c : ascii) : bool :=
  (65 <=? nat_of_ascii c)%nat && (nat_of_ascii c <=? 90)%nat.

Definition lower_ascii (c : ascii) : ascii :=
  if is_upper c then ascii_of_nat (nat_of_ascii c + 32) else c.

(** [s.lower()] *)
Fixpoint lower (s : string) : string :=
  match s with
  | EmptyString => EmptyString
  | String c s' => String (lower_ascii c) (lower s')
  end.

(** [c.isspace()] on ASCII: tab to carriage return, the four separators
    and the blank. *)
Definition is_space (c : ascii) : bool :=
  let n := nat_of_ascii c in
  ((9 <=? n)%nat && (n <=? 13)%nat) || ((28 <=? n)%nat && (n <=? 32)%nat).

Fixpoint lstrip (s : string) : string :=
  match s with
  | EmptyString => EmptyString
  | String c s' => if is_space c then lstrip s' else s
  end.

Fixpoint rstrip (s : string) : string :=
  match s with
  | EmptyString => EmptyString
  | String c s' =>
      match rstrip s' with
      | EmptyString => if is_space c then EmptyString else String c EmptyString
      | r => String c r
      end
  end.

(** [s.strip()] *)
Definition strip (s : string) : string := rstrip (lstrip s).

(** [s.startswith(p)] *)
Definition startswith (s p : string) : bool := String.prefix p s.

(** [sub in s] *)
Fixpoint contains (sub s : string) : bool :=
  String.prefix sub s ||
  match s with
  | EmptyString => false
  | String _ s' => contains sub s'
  end.

(** [sep.join(l)] *)
Definition join (sep : string) (l : list string) : string := String.concat sep l.

(** [s.split('.')[0]] *)
Fixpoint first_component (s : string) : string :=
  match s with
  | EmptyString => EmptyString
  | String c s' => if Ascii.eqb c "." then EmptyString else String c (first_component s')
  end.

Definition is_digit (c : ascii) : bool :=
  (48 <=? nat_of_ascii c)%nat && (nat_of_ascii c <=? 57)%nat.

Definition flush (cur : string) : list string :=
  match cur with EmptyString => [] | _ => [cur] end.

(** [re.findall(r'\d+', s)]: the maximal runs of digits, left to right;
    [cur] is the run being read. *)
Fixpoint findall_digits_from (cur s : string) : list string :=
  match s with
  | EmptyString => flush cur
  | String c s' =>
      if is_digit c then findall_digits_from (cur +:+ String c EmptyString) s'
      else flush cur ++ findall_digits_from EmptyString s'
  end.

Definition findall_digits (s : string) : list string :=
  findall_digits_from EmptyString s.

(** [str(n)] for an [int] *)
Definition of_Z (n : Z) : string := NilZero.string_of_int (Z.to_int n).

End Str.

(** ** Exceptions and results *)

Inductive ExnClass : Type :=
  | ValueError | TypeError | AttributeError | IndexError | KeyError
  | OverflowError | ZeroDivisionError | ImportError | RuntimeError
  | SyntaxError | ReError | OtherException.

Global Instance ExnClass_eq_dec : EqDecision ExnClass.
Proof. solve_decision. Defined.

(** An instance of [Exception]: its class and [str(e)].  Interpreter
    exits ([SystemExit], [KeyboardInterrupt]) are no [Exception]s and
    are not values of this type. *)
Record PyExn : Type := mkExn { exn_class : ExnClass; exn_msg : string }.

Inductive result (A : Type) : Type :=
  | Ok (a : A)
  | Raise (e : PyExn).
Arguments Ok {A} a.
Arguments Raise {A} e.

Definition rbind {A B} (r : result A) (k : A -> result B) : result B :=
  match r with
  | Ok a => k a
  | Raise e => Raise e
  end.

Notation "x <- r ;; k" := (rbind r (fun x => k))
  (at level 100, r at next level, right associativity).

(** [try: body / except classes: handler] *)
Definition try_except {A} (body : result A) (classes : list ExnClass)
    (handler : PyExn -> result A) : result A :=
  match body with
  | Ok a => Ok a
  | Raise e => if bool_decide (exn_class e ∈ classes) then handler e else Raise e
  end.

Definition is_ok {A} (r : result A) : bool :=
  match r with Ok _ => true | Raise _ => false end.

(** ** Intent recognition ([src/core/intent_recognition.py]) *)

Module Intent.

(** A successful [re.Match]: [group(0)], [match.string] and
    [groupdict()], which has an entry for every named group of the
    pattern, [None] for a group that took no part in the match. *)
Record Match : Type := mkMatch {
  group0 : string;
  mstring : string;
  groupdict : gmap string (option string)
}.

(** The Python library as the recognizer uses it. *)
Class Runtime : Type := {
  (** Python floats *)
  float : Type;
  (** compiled patterns *)
  Pattern : Type;
  (** [int(s)] for a string; [None] is [ValueError] *)
  int_of_str : string -> option Z;
  (** [float(s)] for a string; [None] is [ValueError] *)
  float_of_str : string -> option float;
  (** [int(x)] for a float: [ValueError] on nan, [OverflowError] on an infinity *)
  int_of_float : float -> result Z;
  (** [float(n)] for an int: [OverflowError] when out of range *)
  float_of_int : Z -> result float;
  (** [bool(x)] for a float *)
  float_truth : float -> bool;
  (** [str(x)] for a float *)
  float_str : float -> string;
  (** [str(Path(p))] *)
  path_str : string -> string;
  (** [re.compile(p, re.IGNORECASE)]; [re.error] on a malformed pattern *)
  re_compile : string -> result Pattern;
  (** [pattern.search(text)] *)
  re_search : Pattern -> string -> option Match;
  (** [re.match(p, s)] as a truth value; [re.error] on a malformed pattern *)
  re_match : string -> string -> result bool
}.

Section Recognizer.

Context {R : Runtime}.

(** Values of parameters: what [_convert_parameter_type] receives and
    returns, and what a default can be. *)
Inductive PyVal : Type :=
  | VNone
  | VBool (b : bool)
  | VInt (n : Z)
  | VFloat (x : float)
  | VStr (s : string)
  | VPath (p : string)           (* pathlib.Path(p) *)
  | VCoords (x y : Z).           (* {"x": x, "y": y} *)

(** [v is None] *)
Definition is_none (v : PyVal) : bool :=
  match v with VNone => true | _ => false end.

(** [bool(v)] *)
Definition truthy (v : PyVal) : bool :=
  match v with
  | VNone => false
  | VBool b => b
  | VInt n => negb (n =? 0)%Z
  | VFloat x => float_truth x
  | VStr s => negb (String.eqb s "")
  | VPath _ => true
  | VCoords _ _ => true
  end.

(** [str(v)] *)
Definition py_str (v : PyVal) : string :=
  match v with
  | VNone => "None"
  | VBool true => "True"
  | VBool false => "False"
  | VInt n => Str.of_Z n
  | VFloat x => float_str x
  | VStr s => s
  | VPath p => path_str p
  | VCoords x y => "{'x': " +:+ Str.of_Z x +:+ ", 'y': " +:+ Str.of_Z y +:+ "}"
  end.

Definition exn (c : ExnClass) (msg : string) : PyExn := mkExn c msg.

(** [int(s)] for a string *)
Definition int_str (s : string) : result Z :=
  match int_of_str s with
  | Some n => Ok n
  | None => Raise (exn ValueError ("invalid literal for int() with base 10: '" +:+ s +:+ "'"))
  end.

(** [int(v)] *)
Definition py_int (v : PyVal) : result PyVal :=
  match v with
  | VBool b => Ok (VInt (Z.b2z b))
  | VInt n => Ok (VInt n)
  | VFloat x => n <- int_of_float x ;; Ok (VInt n)
  | VStr s => n <- int_str s ;; Ok (VInt n)
  | VNone | VPath _ | VCoords _ _ =>
      Raise (exn TypeError "int() argument must be a string, a bytes-like object or a real number")
  end.

(** [float(v)] *)
Definition py_float (v : PyVal) : result PyVal :=
  match v with
  | VBool b => x <- float_of_int (Z.b2z b) ;; Ok (VFloat x)
  | VInt n => x <- float_of_int n ;; Ok (VFloat x)
  | VFloat x => Ok (VFloat x)
  | VStr s =>
      match float_of_str s with
      | Some x => Ok (VFloat x)
      | None => Raise (exn ValueError ("could not convert string to float: '" +:+ s +:+ "'"))
      end
  | VNone | VPath _ | VCoords _ _ =>
      Raise (exn TypeError "float() argument must be a string or a real number")
  end.

(** [v.lower()]: only strings have the method *)
Definition py_lower (v : PyVal) : result string :=
  match v with
  | VStr s => Ok (Str.lower s)
  | _ => Raise (exn AttributeError "object has no attribute 'lower'")
  end.

(** [re.findall(r'\d+', v)] *)
Definition py_findall_digits (v : PyVal) : result (list string) :=
  match v with
  | VStr s => Ok (Str.findall_digits s)
  | _ => Raise (exn TypeError "expected string or bytes-like object")
  end.

(** [Path(v)] *)
Definition py_Path (v : PyVal) : result PyVal :=
  match v with
  | VStr s => Ok (VPath s)
  | VPath p => Ok (VPath p)
  | _ => Raise (exn TypeError "expected str, bytes or os.PathLike object")
  end.

Definition truthy_words : list string := ["true"; "yes"; "1"; "on"; "enable"].

(** The [try] block of [_convert_parameter_type]. *)
Definition convert_body (value : PyVal) (param_type : string) : result PyVal :=
  if String.eqb param_type "int" then py_int value
  else if String.eqb param_type "float" then py_float value
  else if String.eqb param_type "bool" then
    s <- py_lower value ;; Ok (VBool (bool_decide (s ∈ truthy_words)))
  else if String.eqb param_type "coordinates" then
    coords <- py_findall_digits value ;;
    match coords with
    | c0 :: c1 :: _ => x <- int_str c0 ;; y <- int_str c1 ;; Ok (VCoords x y)
    | _ => Ok VNone
    end
  else if String.eqb param_type "path" then py_Path value
  else Ok value.

(** [IntentRecognizer._convert_parameter_type] *)
Definition _convert_parameter_type (value : PyVal) (param_type : string) : result PyVal :=
  if is_none value then Ok VNone
  else try_except (convert_body value param_type) [ValueError; TypeError]
         (fun _ => Ok value).

(** *** The data model *)

Inductive IntentCategory : Type :=
  | AUTOMATION | FILE_SYSTEM | SYSTEM_INFO | APPLICATION
  | COMMUNICATION | CODE_EXECUTION | MEDIA | UTILITY.

(** [IntentParameter]; [default] is [VNone] when there is none. *)
Record IntentParameter : Type := mkParam {
  p_name : string;
  p_type : string;
  required : bool;
  p_description : string;
  default : PyVal;
  validation_pattern : option string
}.

(** A handler bound to the automation object: a coroutine function or a
    plain one, from the parameters to the returned dictionary or the
    exception it raises. *)
Record Handler : Type := mkHandler {
  is_coroutine : bool;
  call : gmap string PyVal -> result (gmap string PyVal)
}.

(** [Intent]; [parameters] is a dictionary in insertion order. *)
Record Intent : Type := mkIntent {
  name : string;
  category : IntentCategory;
  parameters : list (string * IntentParameter);
  patterns : list string;
  handler : option Handler;
  requires_confirmation : bool;
  description : string;
  examples : list string
}.

Record ParsedIntent : Type := mkParsed {
  intent : Intent;
  extracted_params : gmap string PyVal;
  confidence : Q;
  raw_text : string
}.

(** The two dictionaries of an [IntentRecognizer]. *)
Record IntentRecognizer : Type := mkRecognizer {
  intents : list (string * Intent);
  compiled_patterns : gmap string (list Pattern)
}.

(** [d[k] = v] on a dictionary kept in insertion order. *)
Fixpoint dict_set {A} (k : string) (v : A) (d : list (string * A)) : list (string * A) :=
  match d with
  | [] => [(k, v)]
  | (k', v') :: d' =>
      if String.eqb k k' then (k, v) :: d' else (k', v') :: dict_set k v d'
  end.

(** *** Parameter extraction *)

(** [match.group(name)] as a Python value *)
Definition of_group (g : option string) : PyVal :=
  match g with
  | Some s => VStr s
  | None => VNone
  end.

(** One turn of the loop of [_extract_parameters]. *)
Definition extract_one (m : Match) (param_name : string) (param : IntentParameter)
    (extracted : gmap string PyVal) : result (gmap string PyVal) :=
  try_except
    (match groupdict m !! param_name with
     | Some g =>
         v <- _convert_parameter_type (of_group g) (p_type param) ;;
         Ok (<[param_name := v]> extracted)
     | None =>
         if negb (required param) && negb (is_none (default param))
         then Ok (<[param_name := default param]> extracted)
         else Ok extracted
     end)
    [IndexError; ValueError]
    (fun _ =>
       if negb (is_none (default param))
       then Ok (<[param_name := default param]> extracted)
       else Ok extracted).

(** The loop of [_extract_parameters] over the items [ps], from the
    dictionary built so far. *)
Definition extract_loop (m : Match) (ps : list (string * IntentParameter))
    (acc : result (gmap string PyVal)) : result (gmap string PyVal) :=
  fold_left
    (fun acc entry => extracted <- acc ;; extract_one m (fst entry) (snd entry) extracted)
    ps acc.

(** [IntentRecognizer._extract_parameters] *)
Definition _extract_parameters (i : Intent) (m : Match) (text : string)
    : result (gmap string PyVal) :=
  extract_loop m (parameters i) (Ok ∅).

(** *** Confidence *)

(** [a > b] on scores *)
Definition Qgtb (a b : Q) : bool := negb (Qle_bool a b).

(** [min(a, b)]: [b] when it is smaller, else [a] *)
Definition py_min (a b : Q) : Q := if Qgtb a b then b else a.

(** [name in d and d[name] is not None] *)
Definition has_value (d : gmap string PyVal) (k : string) : bool :=
  match d !! k with
  | Some v => negb (is_none v)
  | None => false
  end.

(** [match.group(0).strip().lower() == match.string.strip().lower()] *)
Definition exact_match (m : Match) : bool :=
  String.eqb (Str.lower (Str.strip (group0 m))) (Str.lower (Str.strip (mstring m))).

(** [IntentRecognizer._calculate_confidence] *)
Definition _calculate_confidence (i : Intent) (m : Match)
    (extracted_params : gmap string PyVal) : Q :=
  let base_confidence := 0.7%Q in
  let required_params := List.filter required (map snd (parameters i)) in
  let base_confidence :=
    match required_params with
    | [] => base_confidence
    | _ :: _ =>
        let extracted_required :=
          length (List.filter (fun param => has_value extracted_params (p_name param))
                    required_params) in
        let param_confidence :=
          (Z.of_nat extracted_required # Pos.of_nat (length required_params))%Q in
        (base_confidence + param_confidence * 0.3)%Q
    end in
  let base_confidence :=
    if exact_match m then (base_confidence + 0.1)%Q else base_confidence in
  py_min base_confidence 1.

(** *** Registration and parsing *)

(** [[re.compile(p, re.IGNORECASE) for p in ps]] *)
Fixpoint compile_all (ps : list string) : result (list Pattern) :=
  match ps with
  | [] => Ok []
  | p :: ps' => c <- re_compile p ;; cs <- compile_all ps' ;; Ok (c :: cs)
  end.

Definition with_handler (i : Intent) (h : option Handler) : Intent :=
  match h with
  | Some _ => mkIntent (name i) (category i) (parameters i) (patterns i) h
                (requires_confirmation i) (description i) (examples i)
  | None => i
  end.

(** [IntentRecognizer.register_intent]: the recognizer afterwards, and
    whether compiling the patterns raised.  The template is stored
    before its patterns are compiled. *)
Definition register_intent (self : IntentRecognizer) (i : Intent) (h : option Handler)
    : IntentRecognizer * result unit :=
  let i := with_handler i h in
  let stored := dict_set (name i) i (intents self) in
  match compile_all (patterns i) with
  | Ok cs => (mkRecognizer stored (<[name i := cs]> (compiled_patterns self)), Ok tt)
  | Raise e => (mkRecognizer stored (compiled_patterns self), Raise e)
  end.

(** The running best of [parse_intent]: [best_match], [best_confidence]. *)
Definition Best : Type := (option ParsedIntent * Q)%type.

(** The body of the inner loop of [parse_intent]. *)
Definition try_pattern (text : string) (i : Intent) (best : Best) (pattern : Pattern)
    : result Best :=
  match re_search pattern text with
  | Some m =>
      extracted <- _extract_parameters i m text ;;
      let c := _calculate_confidence i m extracted in
      if Qgtb c (snd best)
      then Ok (Some (mkParsed i extracted c text), c)
      else Ok best
  | None => Ok best
  end.

Definition try_patterns (text : string) (i : Intent) (ps : list Pattern) (best : Best)
    : result Best :=
  fold_left (fun acc pattern => b <- acc ;; try_pattern text i b pattern) ps (Ok best).

(** The body of the outer loop: [self.compiled_patterns[intent_name]]
    raises [KeyError] on a missing key. *)
Definition try_intent (self : IntentRecognizer) (text : string) (best : Best)
    (entry : string * Intent) : result Best :=
  match compiled_patterns self !! fst entry with
  | Some ps => try_patterns text (snd entry) ps best
  | None => Raise (exn KeyError ("'" +:+ fst entry +:+ "'"))
  end.

(** [IntentRecognizer.parse_intent] *)
Definition parse_intent (self : IntentRecognizer) (text : string)
    : result (option ParsedIntent) :=
  best <- fold_left (fun acc entry => b <- acc ;; try_intent self text b entry)
            (intents self) (Ok (None, 0%Q)) ;;
  Ok (fst best).

(** *** Validation and execution *)

Record Validation : Type := mkValidation {
  valid : bool;
  error : option string
}.

Definition missing_msg (param_name : string) : string :=
  "Required parameter '" +:+ param_name +:+ "' is missing".

Definition mismatch_msg (param_name : string) : string :=
  "Parameter '" +:+ param_name +:+ "' doesn't match required pattern".

(** [bool(param.validation_pattern)] *)
Definition pattern_truthy (p : option string) : bool :=
  match p with
  | Some s => negb (String.eqb s "")
  | None => false
  end.

Definition pattern_text (p : option string) : string :=
  match p with
  | Some s => s
  | None => ""
  end.

(** [d.get(k)] *)
Definition dict_get (d : gmap string PyVal) (k : string) : PyVal :=
  match d !! k with
  | Some v => v
  | None => VNone
  end.

(** One turn of the loop of [_validate_parameters]. *)
Definition validate_one (extracted : gmap string PyVal) (errors : list string)
    (param_name : string) (param : IntentParameter) : result (list string) :=
  let value := dict_get extracted param_name in
  if required param && is_none value
  then Ok (errors ++ [missing_msg param_name])%list
  else if truthy value && pattern_truthy (validation_pattern param)
  then
    ok <- re_match (pattern_text (validation_pattern param)) (py_str value) ;;
    if ok then Ok errors else Ok (errors ++ [mismatch_msg param_name])%list
  else Ok errors.

(** The loop of [_validate_parameters] over the items [ps], from the
    errors collected so far. *)
Definition validate_loop (extracted : gmap string PyVal)
    (ps : list (string * IntentParameter)) (acc : result (list string))
    : result (list string) :=
  fold_left
    (fun acc entry =>
       errors <- acc ;; validate_one extracted errors (fst entry) (snd entry))
    ps acc.

(** The list [errors] at the end of the loop. *)
Definition validation_errors (pi : ParsedIntent) : result (list string) :=
  validate_loop (extracted_params pi) (parameters (intent pi)) (Ok []).

(** [IntentRecognizer._validate_parameters] *)
Definition _validate_parameters (pi : ParsedIntent) : result Validation :=
  errors <- validation_errors pi ;;
  Ok (mkValidation (bool_decide (length errors = 0%nat))
        (match errors with [] => None | _ => Some (Str.join "; " errors) end)).

(** [{"success": False, "error": msg}] *)
Definition failure (msg : string) : gmap string PyVal :=
  <["error" := VStr msg]> (<["success" := VBool false]> ∅).

(** [f"{e}"] for the [error] entry of a validation result *)
Definition show_error (e : option string) : string :=
  match e with
  | Some s => s
  | None => "None"
  end.

(** [IntentRecognizer.execute_intent]; [except Exception] makes it
    total. *)
Definition execute_intent (pi : ParsedIntent) : gmap string PyVal :=
  match handler (intent pi) with
  | None => failure ("No handler registered for intent: " +:+ name (intent pi))
  | Some h =>
      let body :=
        validation_result <- _validate_parameters pi ;;
        if negb (valid validation_result)
        then Ok (failure ("Parameter validation failed: " +:+
                          show_error (error validation_result)))
        else
          let params_with_context :=
            <["_raw_message" := VStr (raw_text pi)]> (extracted_params pi) in
          if is_coroutine h then call h params_with_context
          else call h params_with_context in
      match body with
      | Ok r => r
      | Raise e => failure (exn_msg e)
      end
  end.

End Recognizer.

(** *** A runtime for closed examples

    Decimal literals only; floats are read exactly, as rationals; the
    answers of [re] are the recorded ones for the patterns and texts of
    the examples, and no other is consulted there. *)

Fixpoint digits_value (s : string) (acc : Z) : option Z :=
  match s with
  | EmptyString => Some acc
  | String c s' =>
      if Str.is_digit c
      then digits_value s' (10 * acc + (Z.of_nat (nat_of_ascii c) - 48))%Z
      else None
  end.

Definition unsigned_of_str (s : string) : option Z :=
  match s with
  | EmptyString => None
  | _ => digits_value s 0
  end.

Definition decimal_int (s : string) : option Z :=
  match Str.strip s with
  | String "-" s' => Z.opp <$> unsigned_of_str s'
  | String "+" s' => unsigned_of_str s'
  | s' => unsigned_of_str s'
  end.

Fixpoint split_dot (s : string) : string * option string :=
  match s with
  | EmptyString => (EmptyString, None)
  | String c s' =>
      if Ascii.eqb c "." then (EmptyString, Some s')
      else let (a, b) := split_dot s' in (String c a, b)
  end.

Definition unsigned_decimal (s : string) : option Q :=
  match split_dot s with
  | (a, None) => inject_Z <$> unsigned_of_str a
  | (a, Some b) =>
      match unsigned_of_str a, unsigned_of_str b with
      | Some x, Some y =>
          let scale := (10 ^ Z.of_nat (String.length b))%Z in
          Some ((x * scale + y) # Z.to_pos scale)%Q
      | _, _ => None
      end
  end.

Definition decimal_float (s : string) : option Q :=
  match Str.strip s with
  | String "-" s' => Qopp <$> unsigned_decimal s'
  | String "+" s' => unsigned_decimal s'
  | s' => unsigned_decimal s'
  end.

Definition screenshot_pattern_1 : string :=
  "take\s+(?:a\s+)?screenshot(?:\s+(?:and\s+)?save\s+(?:it\s+)?(?:to\s+)?(?P<save_path>\S+))?".
Definition screenshot_pattern_2 : string :=
  "screenshot(?:\s+save\s+(?:to\s+)?(?P<save_path>\S+))?".
Definition screenshot_pattern_3 : string :=
  "capture\s+(?:the\s+)?screen(?:\s+(?:to\s+)?(?P<save_path>\S+))?".

(** The matches of the screenshot patterns in "take a screenshot": the
    first matches the whole text, the second the last word, and in both
    the group [save_path] takes no part.  In "system status" the pattern
    of that text, which has no group, matches the whole text. *)
Definition recorded_search (p text : string) : option Match :=
  if String.eqb text "take a screenshot" then
    if String.eqb p screenshot_pattern_1
    then Some (mkMatch "take a screenshot" text {[ "save_path" := None ]})
    else if String.eqb p screenshot_pattern_2
    then Some (mkMatch "screenshot" text {[ "save_path" := None ]})
    else None
  else if String.eqb text "system status" then
    if String.eqb p "system\s+status"
    then Some (mkMatch "system status" text ∅)
    else None
  else None.

Definition unbalanced_msg : string :=
  "missing ), unterminated subpattern at position 0".

(** [re] rejects the pattern "(" *)
Definition recorded_compile (p : string) : result string :=
  if String.eqb p "(" then Raise (mkExn ReError unbalanced_msg) else Ok p.

Definition recorded_match (p s : string) : result bool :=
  if String.eqb p "(" then Raise (mkExn ReError unbalanced_msg)
  else if String.eqb p "\d+" then
    Ok (match s with String c _ => Str.is_digit c | EmptyString => false end)
  else Ok false.

Definition decimal_runtime : Runtime := {|
  float := Q;
  Pattern := string;
  int_of_str := decimal_int;
  float_of_str := decimal_float;
  int_of_float := fun x => Ok (Z.quot (Qnum x) (Z.pos (Qden x)));
  float_of_int := fun n => Ok (inject_Z n);
  float_truth := fun x => negb (Qeq_bool x 0);
  float_str := fun x => Str.of_Z (Qnum x) +:+ "/" +:+ Str.of_Z (Z.pos (Qden x));
  path_str := fun p => p;
  re_compile := recorded_compile;
  re_search := recorded_search;
  re_match := recorded_match
|}.

(** The template [take_screenshot] of [_register_default_intents], with
    the handler it is bound to. *)
Definition screenshot_intent {R : Runtime} (h : option Handler) : Intent :=
  mkIntent "take_screenshot" AUTOMATION
    [("save_path", mkParam "save_path" "path" false "" (VStr "desktop") None)]
    [screenshot_pattern_1; screenshot_pattern_2; screenshot_pattern_3]
    h false "Take a screenshot of the current screen"
    ["take a screenshot"; "screenshot and save to desktop";
     "capture the screen to C:/screenshots/image.png"].

(** *** Recognizers in use, and the matches of a text *)

Section Scan.

Context {R : Runtime}.

(** A recognizer as the program builds it: the empty one of [__init__],
    then calls of [register_intent] that return. *)
Inductive registered : IntentRecognizer -> Prop :=
  | registered_init : registered (mkRecognizer [] ∅)
  | registered_next self i h self' :
      registered self ->
      register_intent self i h = (self', Ok tt) ->
      registered self'.

(** The matches of a text among the compiled patterns [ps] of a
    template, in order. *)
Definition matches_of (text : string) (i : Intent) (ps : list Pattern)
    : list (Intent * Match) :=
  flat_map (fun p => match re_search p text with
                     | Some m => [(i, m)]
                     | None => []
                     end) ps.

(** The matches of a text among the templates [entries], each with the
    patterns the recognizer compiled for it. *)
Definition matches_in (self : IntentRecognizer) (text : string)
    (entries : list (string * Intent)) : list (Intent * Match) :=
  flat_map
    (fun entry =>
       match compiled_patterns self !! fst entry with
       | Some ps => matches_of text (snd entry) ps
       | None => []
       end) entries.

(** The matches of a text: for each template in registration order and
    each of its compiled patterns in order, the match when there is one. *)
Definition matches (self : IntentRecognizer) (text : string) : list (Intent * Match) :=
  matches_in self text (intents self).

(** The parsed intent of one match. *)
Definition candidate (text : string) (im : Intent * Match) : ParsedIntent :=
  let extracted :=
    match _extract_parameters (fst im) (snd im) text with
    | Ok d => d
    | Raise _ => ∅
    end in
  mkParsed (fst im) extracted (_calculate_confidence (fst im) (snd im) extracted) text.

Definition candidates (self : IntentRecognizer) (text : string) : list ParsedIntent :=
  map (candidate text) (matches self text).


(** The messages for the required parameters among [ps] that have no
    value in [extracted]. *)
Definition missing_entries (extracted : gmap string PyVal)
    (ps : list (string * IntentParameter)) : list string :=
  map (fun entry => missing_msg (fst entry))
    (List.filter
       (fun entry => required (snd entry) && is_none (dict_get extracted (fst entry)))
       ps).

(** The running best once one more candidate is seen. *)
Definition pick (best : Best) (q : ParsedIntent) : Best :=
  if Qgtb (confidence q) (snd best) then (Some q, confidence q) else best.



End Scan.

(** *** The caller in [main.py] *)

Section Caller.

Context {R : Runtime}.

(** [d[k]], which raises [KeyError] on a missing key *)
Definition dict_index (d : gmap string PyVal) (k : string) : result PyVal :=
  match d !! k with
  | Some v => Ok v
  | None => Raise (exn KeyError ("'" +:+ k +:+ "'"))
  end.

(** The dictionary [_handle_intent_automation] returns: [success],
    [message] and, on success, [data] with the name of the template, the
    confidence and the result of the handler. *)
Record Response : Type := mkResponse {
  resp_success : bool;
  resp_message : string;
  resp_data : option (string * Q * gmap string PyVal)
}.

Definition not_understood : string :=
  "I couldn't understand that automation request. Try being more specific, like 'take a screenshot' or 'open calculator'.".

(** [IntegratedWindowsAgent._handle_intent_automation] of [main.py] *)
Definition _handle_intent_automation (self : IntentRecognizer) (message : string)
    : Response :=
  let body :=
    parsed <- parse_intent self message ;;
    match parsed with
    | Some parsed_intent =>
        if Qgtb (confidence parsed_intent) 0.6
        then
          let result := execute_intent parsed_intent in
          ok <- dict_index result "success" ;;
          if truthy ok
          then
            msg <- dict_index result "message" ;;
            Ok (mkResponse true
                  ("✅ **" +:+ name (intent parsed_intent) +:+ "**: " +:+ py_str msg)
                  (Some (name (intent parsed_intent), confidence parsed_intent, result)))
          else
            msg <- dict_index result "message" ;;
            Ok (mkResponse false
                  ("❌ **" +:+ name (intent parsed_intent) +:+ " failed**: " +:+ py_str msg)
                  None)
        else Ok (mkResponse false not_understood None)
    | None => Ok (mkResponse false not_understood None)
    end in
  match body with
  | Ok r => r
  | Raise e =>
      mkResponse false ("Error processing automation request: " +:+ exn_msg e) None
  end.

End Caller.

(** *** Templates and recognizers for closed examples *)

(** The template [system_information] of [_register_default_intents]. *)
Definition system_info_intent {R : Runtime} (h : option Handler) : Intent :=
  mkIntent "system_information" SYSTEM_INFO
    [("info_type", mkParam "info_type" "string" false "" (VStr "general") None)]
    ["(?:show|get|display)\s+system\s+(?:info|information)(?:\s+(?P<info_type>cpu|memory|disk|network))?";
     "system\s+status";
     "computer\s+(?:info|information)";
     "pc\s+(?:info|specs|specifications)"]
    h false "Display system information and status"
    ["show system info"; "get system information cpu"; "computer info"].

(** The recognizer with [take_screenshot] registered. *)
Definition screenshot_recognizer : @IntentRecognizer decimal_runtime :=
  fst (@register_intent decimal_runtime (mkRecognizer [] ∅) (screenshot_intent None) None).

(** A template whose only parameter is required and has a default; its
    pattern has no named group. *)
Definition launch_intent : @Intent decimal_runtime :=
  mkIntent "launch" APPLICATION
    [("app_name", mkParam "app_name" "string" true "" (VStr "notepad") None)]
    ["launch"] None false "" [].

(** A handler that raises. *)
Definition failing_handler : @Handler decimal_runtime :=
  mkHandler true (fun _ => Raise (mkExn RuntimeError "screen capture failed")).

(** A template with a required parameter and an optional one whose
    validation pattern is the malformed "(". *)
Definition save_intent : @Intent decimal_runtime :=
  mkIntent "save" FILE_SYSTEM
    [("filename", mkParam "filename" "string" true "" VNone None);
     ("mode", mkParam "mode" "string" false "" VNone (Some "("))]
    ["save"] (Some failing_handler) false "" [].

(** Parsed intents of those templates: no parameter was extracted but
    "mode". *)
Definition save_parsed : @ParsedIntent decimal_runtime :=
  mkParsed save_intent (<["mode" := VStr "w"]> ∅) 0.7 "save".


(** A template whose pattern does not compile. *)
Definition broken_intent : @Intent decimal_runtime :=
  mkIntent "broken" UTILITY [] ["("] None false "" [].

(** A handler that returns. *)
Definition saving_handler : @Handler decimal_runtime :=
  mkHandler true (fun _ =>
    Ok (<["message" := VStr "Screenshot saved to clipboard"]>
          (<["success" := VBool true]> ∅))).

(** The recognizers with [take_screenshot] bound to each handler. *)
Definition saving_recognizer : @IntentRecognizer decimal_runtime :=
  fst (@register_intent decimal_runtime (mkRecognizer [] ∅) (screenshot_intent None)
         (Some saving_handler)).

Definition failing_recognizer : @IntentRecognizer decimal_runtime :=
  fst (@register_intent decimal_runtime (mkRecognizer [] ∅) (screenshot_intent None)
         (Some failing_handler)).

(** A template with two required parameters. *)
Definition copy_intent : @Intent decimal_runtime :=
  mkIntent "copy" FILE_SYSTEM
    [("source", mkParam "source" "string" true "" VNone None);
     ("destination", mkParam "destination" "string" true "" VNone None)]
    ["copy"] (Some failing_handler) false "" [].

Definition copy_parsed : @ParsedIntent decimal_runtime :=
  mkParsed copy_intent ∅ 0.7 "copy".

End Intent.

(** ** The code sandbox ([src/utils/code_executor.py]) *)

Module Sandbox.

(** *** Syntax trees, as [CodeValidator] sees them *)

Record alias : Type := mkAlias { alias_name : string; asname : option string }.

(** The node classes the validator has a method for, and [Other] for
    every other class ([Module], [Expr], [Assign], [BinOp], ...) with its
    child nodes in field order.  The [args] of a [Call] are its
    arguments followed by its keywords, as [generic_visit] meets them. *)
#[warnings="-register-all"]
Inductive node : Type :=
  | Import (names : list alias)
  | ImportFrom (module : option string) (names : list alias)
  | Call (func : node) (args : list node)
  | Attribute (value : node) (attr : string)
  | Name (id : string)
  | Other (children : list node).

(** How a run of [exec] in the worker thread ends for the caller:
    finished, raised, or still running when the timeout elapsed (what
    the abandoned thread does later is not part of the model). *)
Inductive Status : Type :=
  | Finished
  | Raised (e : PyExn)
  | TimedOut.

Record Execution (Value Heap : Type) : Type := mkExecution {
  status : Status;
  final_namespace : gmap string Value;
  final_heap : Heap;
  stdout : string;
  stderr : string
}.
Arguments mkExecution {Value Heap}.
Arguments status {Value Heap}.
Arguments final_namespace {Value Heap}.
Arguments final_heap {Value Heap}.
Arguments stdout {Value Heap}.
Arguments stderr {Value Heap}.

(** The interpreter as the sandbox uses it.  A [Value] is a reference to
    an object; what a mutable object holds is in the [Heap], so two
    namespaces that bind the same value share the object. *)
Class Python : Type := {
  Value : Type;
  Heap : Type;
  (** the string object with the given text *)
  str_value : string -> Value;
  (** [str(v)] *)
  py_str : Heap -> Value -> string;
  (** [isinstance(v, (types.ModuleType, types.FunctionType))] *)
  is_module_or_function : Value -> bool;
  (** [json.dumps(v)] returns, rather than raising [TypeError] or [ValueError] *)
  json_serializable : Heap -> Value -> bool;
  (** [ast.parse(code)] *)
  ast_parse : string -> result node;
  (** [None] without RestrictedPython; else the value of
      [compile_restricted(code, '<string>', 'exec').errors] *)
  compile_restricted : option (string -> result (list string));
  (** [exec(code, namespace)] in a thread joined with the timeout *)
  py_exec : string -> gmap string Value -> Heap -> Z -> Execution Value Heap
}.

(** *** [CodeValidator] *)

Definition prohibited_functions : list string :=
  ["exec"; "eval"; "compile"; "open"; "__import__";
   "getattr"; "setattr"; "delattr"; "hasattr";
   "globals"; "locals"; "vars"; "dir"].

Definition prohibited_modules : list string :=
  ["os"; "sys"; "subprocess"; "socket"; "urllib";
   "requests"; "shutil"; "pathlib"; "tempfile"].

(** One turn of the loop of [visit_Import]. *)
Definition check_alias (violations : list string) (a : alias) : list string :=
  let module_name := Str.first_component (alias_name a) in
  if bool_decide (module_name ∈ prohibited_modules)
  then (violations ++ ["Prohibited import: " +:+ module_name])%list
  else violations.

(** [visit_ImportFrom], up to [generic_visit] *)
Definition check_import_from (violations : list string) (module : option string)
    : list string :=
  match module with
  | Some m =>
      if String.eqb m "" then violations
      else
        let module_name := Str.first_component m in
        if bool_decide (module_name ∈ prohibited_modules)
        then (violations ++ ["Prohibited import from: " +:+ module_name])%list
        else violations
  | None => violations
  end.

(** [visit_Call], up to [generic_visit] *)
Definition check_call (violations : list string) (func : node) : list string :=
  match func with
  | Name id =>
      if bool_decide (id ∈ prohibited_functions)
      then (violations ++ ["Prohibited function: " +:+ id])%list
      else violations
  | _ => violations
  end.

(** [visit_Attribute], up to [generic_visit] *)
Definition check_attribute (violations : list string) (attr : string) : list string :=
  if Str.startswith attr "_"
  then (violations ++ ["Prohibited attribute access: " +:+ attr])%list
  else violations.

(** [CodeValidator.visit]: [self.violations] after visiting [n], from
    [self.violations] before. *)
Fixpoint visit (n : node) (violations : list string) : list string :=
  match n with
  | Import names => fold_left check_alias names violations
  | ImportFrom module names => check_import_from violations module
  | Call func args =>
      fold_left (fun acc c => visit c acc) args (visit func (check_call violations func))
  | Attribute value attr => visit value (check_attribute violations attr)
  | Name _ => violations
  | Other children => fold_left (fun acc c => visit c acc) children violations
  end.

(** The tree has an [import] statement of the module [m] or of one of
    its submodules. *)
Inductive imports (m : string) : node -> Prop :=
  | imports_here names a :
      a ∈ names -> Str.first_component (alias_name a) = m -> imports m (Import names)
  | imports_func func args : imports m func -> imports m (Call func args)
  | imports_arg func args c : c ∈ args -> imports m c -> imports m (Call func args)
  | imports_value value attr : imports m value -> imports m (Attribute value attr)
  | imports_child children c : c ∈ children -> imports m c -> imports m (Other children).

(** The violations the [visit_] method of a node adds for the node
    itself, before [generic_visit] goes to its children. *)
Definition own_violations (n : node) : list string :=
  match n with
  | Import names => fold_left check_alias names []
  | ImportFrom module names => check_import_from [] module
  | Call func args => check_call [] func
  | Attribute value attr => check_attribute [] attr
  | Name _ => []
  | Other _ => []
  end.

(** [n] is a node of the tree [t]. *)
Inductive subtree (n : node) : node -> Prop :=
  | subtree_here : subtree n n
  | subtree_func func args : subtree n func -> subtree n (Call func args)
  | subtree_arg func args c : c ∈ args -> subtree n c -> subtree n (Call func args)
  | subtree_value value attr : subtree n value -> subtree n (Attribute value attr)
  | subtree_child children c : c ∈ children -> subtree n c -> subtree n (Other children).

(** *** [SafeExecutionEnvironment] *)

Section Environment.

Context {P : Python}.

Record SafeExecutionEnvironment : Type := mkEnvironment {
  timeout : Z;
  allowed_modules : list string;
  memory_limit_mb : Z;
  safe_namespace : gmap string Value
}.

(** The dictionary [_validate_code] returns. *)
Record Validation : Type := mkValidation {
  valid : bool;
  validation_error : option string
}.

Definition invalid (msg : string) : Validation := mkValidation false (Some msg).

(** The two [except] clauses of [_validate_code]. *)
Definition validation_failure (e : PyExn) : Validation :=
  if bool_decide (exn_class e = SyntaxError)
  then invalid ("Syntax error: " +:+ exn_msg e)
  else invalid ("Validation error: " +:+ exn_msg e).

(** [SafeExecutionEnvironment._validate_code].  The validator visits the
    tree; its [violations] are not read afterwards. *)
Definition _validate_code (code : string) : Validation :=
  match ast_parse code with
  | Raise e => validation_failure e
  | Ok tree =>
      let violations := visit tree [] in
      match compile_restricted with
      | Some errors_of =>
          match errors_of code with
          | Raise e => validation_failure e
          | Ok (_ :: _ as errors) =>
              invalid ("Compilation errors: " +:+ Str.join "; " errors)
          | Ok [] =>
              match errors_of code with
              | Raise e => validation_failure e
              | Ok (_ :: _ as errors) =>
                  invalid ("Compilation errors: " +:+ Str.join "; " errors)
              | Ok [] => mkValidation true None
              end
          end
      | None => mkValidation true None
      end
  end.

(** The value of [compile_restricted(code, ...).errors] when
    RestrictedPython is there, no error when it is not. *)
Definition restricted_errors (code : string) : result (list string) :=
  match compile_restricted with
  | Some errors_of => errors_of code
  | None => Ok []
  end.

(** One turn of the loop of [_extract_user_variables]. *)
Definition extract_entry (self : SafeExecutionEnvironment) (h : Heap)
    (name : string) (value : Value) (user_vars : gmap string Value)
    : gmap string Value :=
  let skip_names : gset string := dom (safe_namespace self) in
  if negb (Str.startswith name "__" || Str.startswith name "_")
     && negb (bool_decide (name ∈ skip_names))
     && negb (is_module_or_function value)
  then
    if json_serializable h value
    then <[name := value]> user_vars
    else <[name := str_value (py_str h value)]> user_vars
  else user_vars.

(** [SafeExecutionEnvironment._extract_user_variables] *)
Definition _extract_user_variables (self : SafeExecutionEnvironment) (h : Heap)
    (namespace : gmap string Value) : gmap string Value :=
  map_fold (extract_entry self h) ∅ namespace.

(** The result dictionary of [execute_code], without the wall-clock
    [execution_time] and the text of the traceback; [return_value] is
    always [None]. *)
Record ExecutionResult : Type := mkResult {
  success : bool;
  output : string;
  error : option string;
  variables : gmap string Value;
  session_variables_copy : option (gmap string Value)
}.

(** [exec_namespace]: a copy of the safe namespace, updated with the
    caller's variables when there are any. *)
Definition exec_namespace (self : SafeExecutionEnvironment)
    (vars : option (gmap string Value)) : gmap string Value :=
  match vars with
  | Some vs => if bool_decide (vs = ∅) then safe_namespace self else vs ∪ safe_namespace self
  | None => safe_namespace self
  end.

(** The error text once the captured [stderr] is added. *)
Definition with_stderr (err : option string) (error_output : string) : option string :=
  if String.eqb error_output "" then err
  else match err with
       | Some e => Some (e +:+ String "010" error_output)
       | None => Some error_output
       end.

(** [SafeExecutionEnvironment.execute_code]: the result and the heap
    afterwards. *)
Definition execute_code (self : SafeExecutionEnvironment) (code : string)
    (vars : option (gmap string Value)) (h : Heap) : ExecutionResult * Heap :=
  let validation := _validate_code code in
  if negb (valid validation)
  then (mkResult false "" (validation_error validation) ∅ None, h)
  else
    let run := py_exec code (exec_namespace self vars) h (timeout self) in
    match status run with
    | Finished =>
        (mkResult true (stdout run) (with_stderr None (stderr run))
           (_extract_user_variables self (final_heap run) (final_namespace run)) None,
         final_heap run)
    | TimedOut =>
        (mkResult false "" (with_stderr (Some "Execution timed out") (stderr run)) ∅ None,
         final_heap run)
    | Raised e =>
        (mkResult false "" (Some (exn_msg e)) ∅ None, final_heap run)
    end.

(** *** [CodeExecutor] *)

Record CodeExecutor : Type := mkExecutor {
  environment : SafeExecutionEnvironment;
  session_variables : gmap string Value
}.

(** [CodeExecutor._execute_safe] *)
Definition _execute_safe (self : CodeExecutor) (code : string) (h : Heap)
    : ExecutionResult * Heap :=
  execute_code (environment self) code None h.

(** [CodeExecutor._execute_persistent]: the result, the executor and
    the heap afterwards. *)
Definition _execute_persistent (self : CodeExecutor) (code : string) (h : Heap)
    : ExecutionResult * CodeExecutor * Heap :=
  let (result, h') := execute_code (environment self) code (Some (session_variables self)) h in
  if success result
  then
    let updated := variables result ∪ session_variables self in
    (mkResult (success result) (output result) (error result) (variables result)
       (Some updated),
     mkExecutor (environment self) updated, h')
  else (result, self, h').

(** [CodeExecutor.validate_code] *)
Definition validate_code (self : CodeExecutor) (code : string) : Validation :=
  _validate_code code.

(** The session as its user reads it: each variable with the text of its
    value ([get_session_info] returns the same objects). *)
Definition session_view (self : CodeExecutor) (h : Heap) : gmap string string :=
  py_str h <$> session_variables self.

End Environment.

(** *** The import hook, the safe namespace and the execution modes *)

Section Modes.

Context {P : Python}.

(** The builtin [__import__]. *)
Variable builtin_import : string -> result Value.

(** [name.startswith(allowed_module + '.')] *)
Definition submodule_of (name allowed_module : string) : bool :=
  Str.startswith name (allowed_module +:+ ".").

(** [SafeExecutionEnvironment._safe_import] *)
Definition _safe_import (self : SafeExecutionEnvironment) (name : string)
    : result Value :=
  if bool_decide (name ∈ allowed_modules self) then builtin_import name
  else if existsb (submodule_of name) (allowed_modules self) then builtin_import name
  else Raise (mkExn ImportError ("Module '" +:+ name +:+ "' is not allowed in safe mode")).

(** RestrictedPython's [safe_builtins] (empty without it), the
    attributes of [__builtins__] ([None] when [hasattr] fails), and the
    bound methods of the environment. *)
Variable safe_builtins : gmap string Value.
Variable builtin_attr : string -> option Value.
Variable bound_method : string -> Value.

Definition safe_functions : list string :=
  ["abs"; "all"; "any"; "bin"; "bool"; "chr"; "dict"; "dir";
   "divmod"; "enumerate"; "filter"; "float"; "format"; "frozenset";
   "hex"; "int"; "isinstance"; "issubclass"; "iter"; "len"; "list";
   "map"; "max"; "min"; "oct"; "ord"; "pow"; "range"; "repr";
   "reversed"; "round"; "set"; "slice"; "sorted"; "str"; "sum";
   "tuple"; "type"; "zip"].

(** One turn of the loop over [safe_functions]. *)
Definition add_builtin (namespace : gmap string Value) (func_name : string)
    : gmap string Value :=
  match builtin_attr func_name with
  | Some f => <[func_name := f]> namespace
  | None => namespace
  end.

(** [SafeExecutionEnvironment._create_safe_namespace] *)
Definition _create_safe_namespace : gmap string Value :=
  let namespace := fold_left add_builtin safe_functions safe_builtins in
  let namespace := <["__import__" := bound_method "_safe_import"]> namespace in
  <["help" := bound_method "_safe_help"]>
    (<["input" := bound_method "_safe_input"]>
       (<["print" := bound_method "_safe_print"]> namespace)).

(** The names bound after the loop: the import hook and the three
    utility functions. *)
Definition hooks : list string := ["__import__"; "print"; "input"; "help"].

(** How the [try] block of [_execute_isolated] ends: the code is written
    to a temporary file, run by the interpreter in a process of its own
    under the timeout, and the file removed. *)
Inductive Subprocess : Type :=
  | Exited (returncode : Z) (out err : string)
  | Expired
  | Failed (e : PyExn).

Variable run_subprocess : string -> Z -> Subprocess.

(** The dictionary [_execute_isolated] returns; the keys [output] and
    [return_code] are there only when the process exited. *)
Record IsolatedResult : Type := mkIsolated {
  iso_success : bool;
  iso_output : option string;
  iso_error : option string;
  return_code : option Z
}.

(** [CodeExecutor._execute_isolated] *)
Definition _execute_isolated (self : CodeExecutor) (code : string) : IsolatedResult :=
  match run_subprocess code (timeout (environment self)) with
  | Exited rc out err =>
      mkIsolated (rc =? 0)%Z (Some out)
        (if String.eqb err "" then None else Some err) (Some rc)
  | Expired =>
      mkIsolated false None (Some "Execution timed out in isolated mode") None
  | Failed e =>
      mkIsolated false None (Some ("Isolated execution failed: " +:+ exn_msg e)) None
  end.

(** What [execute] returns, by mode. *)
Inductive Outcome : Type :=
  | Sandboxed (r : ExecutionResult)
  | Isolated (r : IsolatedResult)
  | UnknownMode (error : string).


(** [CodeExecutor.execute]: the result, the executor and the heap
    afterwards. *)
Definition execute (self : CodeExecutor) (code mode : string) (h : Heap)
    : Outcome * CodeExecutor * Heap :=
  if String.eqb mode "safe" then
    let (r, h') := _execute_safe self code h in (Sandboxed r, self, h')
  else if String.eqb mode "isolated" then
    (Isolated (_execute_isolated self code), self, h)
  else if String.eqb mode "persistent" then
    let '(r, self', h') := _execute_persistent self code h in (Sandboxed r, self', h')
  else (UnknownMode ("Unknown execution mode: " +:+ mode), self, h).

(** [CodeExecutor.clear_session] *)
Definition clear_session (self : CodeExecutor) : CodeExecutor :=
  mkExecutor (environment self) ∅.

(** A session that binds no name starting with an underscore and no
    name of the safe namespace. *)
Definition session_clean (self : CodeExecutor) : Prop :=
  forall name : string,
    is_Some (session_variables self !! name) ->
    Str.startswith name "_" = false /\
    safe_namespace (environment self) !! name = None.

End Modes.

(** *** An interpreter for closed examples

    Integers, strings, lists of integers (mutable, in the heap), modules,
    functions and other objects; the three programs below and nothing
    else, with RestrictedPython absent (the fallback
    [compile_restricted = None] of the source). *)

Inductive MiniValue : Type :=
  | MInt (n : Z)
  | MStr (s : string)
  | MList (l : nat)
  | MModule (name : string)
  | MFunction (name : string)
  | MObject (repr : string).

Definition mini_str (h : gmap nat (list Z)) (v : MiniValue) : string :=
  match v with
  | MInt n => Str.of_Z n
  | MStr s => s
  | MList l =>
      "[" +:+ Str.join ", " (map Str.of_Z (match h !! l with Some xs => xs | None => [] end))
      +:+ "]"
  | MModule name => "<module '" +:+ name +:+ "'>"
  | MFunction name => "<function " +:+ name +:+ ">"
  | MObject repr => repr
  end.

Definition prog_import_os : string := "import os".
Definition prog_bind_list : string := "x = [1]".
Definition prog_append_fail : string := "x.append(2); 1/0".

(** [Module(body=[...])] of each program; constants, operators and
    expression contexts are childless [Other] nodes. *)
Definition mini_parse (code : string) : result node :=
  if String.eqb code prog_import_os then
    Ok (Other [Import [mkAlias "os" None]])
  else if String.eqb code prog_bind_list then
    Ok (Other [Other [Name "x"; Other [Other []]]])
  else if String.eqb code prog_append_fail then
    Ok (Other [Other [Call (Attribute (Name "x") "append") [Other []]];
               Other [Other [Other []; Other []; Other []]]])
  else Raise (mkExn SyntaxError "invalid syntax").

(** [exec] adds the builtins under [__builtins__] to a namespace
    without them. *)
Definition with_builtins (ns : gmap string MiniValue) : gmap string MiniValue :=
  match ns !! "__builtins__" with
  | Some _ => ns
  | None => <["__builtins__" := MObject "<builtins>"]> ns
  end.

Definition fresh_loc (h : gmap nat (list Z)) : nat :=
  map_fold (fun l _ acc => Nat.max (S l) acc) 0%nat h.

Definition mini_exec (code : string) (ns : gmap string MiniValue)
    (h : gmap nat (list Z)) (timeout : Z) : Execution MiniValue (gmap nat (list Z)) :=
  let ns := with_builtins ns in
  if String.eqb code prog_import_os then
    mkExecution Finished (<["os" := MModule "os"]> ns) h "" ""
  else if String.eqb code prog_bind_list then
    let l := fresh_loc h in
    mkExecution Finished (<["x" := MList l]> ns) (<[l := [1%Z]]> h) "" ""
  else if String.eqb code prog_append_fail then
    match ns !! "x" with
    | Some (MList l) =>
        mkExecution (Raised (mkExn ZeroDivisionError "division by zero")) ns
          (alter (fun xs => xs ++ [2%Z])%list l h) "" ""
    | _ =>
        mkExecution (Raised (mkExn OtherException "name 'x' is not defined")) ns h "" ""
    end
  else mkExecution Finished ns h "" "".

Definition mini_python : Python := {|
  Value := MiniValue;
  Heap := gmap nat (list Z);
  str_value := MStr;
  py_str := mini_str;
  is_module_or_function := fun v =>
    match v with MModule _ | MFunction _ => true | _ => false end;
  json_serializable := fun _ v =>
    match v with MInt _ | MStr _ | MList _ => true | _ => false end;
  ast_parse := mini_parse;
  compile_restricted := None;
  py_exec := mini_exec
|}.

(** The environment [CodeExecutor()] builds from the default
    configuration, without RestrictedPython: the safe namespace holds
    the import hook and the three utility functions. *)
Definition mini_environment : @SafeExecutionEnvironment mini_python :=
  @mkEnvironment mini_python 30
    ["os"; "sys"; "math"; "datetime"; "json"; "re"; "random"] 100
    (<["help" := MObject "<bound method _safe_help>"]>
       (<["input" := MObject "<bound method _safe_input>"]>
          (<["print" := MObject "<bound method _safe_print>"]>
             (<["__import__" := MObject "<bound method _safe_import>"]> ∅)))).

Definition mini_executor : @CodeExecutor mini_python :=
  @mkExecutor mini_python mini_environment ∅.

(** A program that exits with status 3 and prints nothing; the
    processes of the examples run nothing else. *)
Definition prog_exit : string := "import sys; sys.exit(3)".

Definition mini_subprocess (code : string) (timeout : Z) : Subprocess :=
  if String.eqb code prog_exit then Exited 3 "" "" else Exited 0 "" "".

End Sandbox.

(** ** Configuration ([src/utils/config.py]) *)

Module Config.

Definition is_lower (c : ascii) : bool :=
  (97 <=? nat_of_ascii c)%nat && (nat_of_ascii c <=? 122)%nat.

Definition upper_ascii (c : ascii) : ascii :=
  if is_lower c then ascii_of_nat (nat_of_ascii c - 32) else c.

(** [s.upper()] on ASCII *)
Fixpoint upper (s : string) : string :=
  match s with
  | EmptyString => EmptyString
  | String c s' => String (upper_ascii c) (upper s')
  end.

Fixpoint all_digits (s : string) : bool :=
  match s with
  | EmptyString => true
  | String c s' => Str.is_digit c && all_digits s'
  end.

(** [s.isdigit()] on ASCII: at least one character, and digits only. *)
Definition isdigit (s : string) : bool :=
  match s with
  | EmptyString => false
  | _ => all_digits s
  end.

Definition digit_value (c : ascii) : Z := Z.of_nat (nat_of_ascii c) - 48.

Fixpoint int_from (acc : Z) (s : string) : Z :=
  match s with
  | EmptyString => acc
  | String c s' => int_from (10 * acc + digit_value c) s'
  end.

(** The number a string of digits writes in base ten. *)
Definition int_of_digits (s : string) : Z := int_from 0 s.

(** [sep in s] for a separator of one character *)
Fixpoint mentions (sep : ascii) (s : string) : bool :=
  match s with
  | EmptyString => false
  | String c s' => Ascii.eqb c sep || mentions sep s'
  end.

(** [s.split(sep)] for a separator of one character *)
Fixpoint split (sep : ascii) (s : string) : list string :=
  match s with
  | EmptyString => [EmptyString]
  | String c s' =>
      if Ascii.eqb c sep then EmptyString :: split sep s'
      else match split sep s' with
           | [] => [String c EmptyString]
           | field :: fields => String c field :: fields
           end
  end.

(** The Python library as the configuration uses it. *)
Class Primitives : Type := {
  (** Python floats *)
  float : Type;
  (** [float(s)] for a string; [None] is [ValueError] *)
  parse_float : string -> option float;
  (** [int(x)] for a float: [ValueError] on nan, [OverflowError] on an infinity *)
  int_of_float : float -> result Z;
  (** [int(s)] for a string; [ValueError] when it is no integer, or
      has more digits than the interpreter converts *)
  int_of_str : string -> result Z;
  (** [bool(x)] for a float *)
  float_truth : float -> bool;
  (** the lists and mappings a YAML file can hold as values *)
  Data : Type;
  (** [bool(x)] for one of them *)
  data_truth : Data -> bool
}.

Section Settings.

Context {N : Primitives}.

(** What [get] can return: a converted environment variable, a value
    of a YAML file, or the default. *)
Inductive Setting : Type :=
  | SNone
  | SBool (b : bool)
  | SInt (n : Z)
  | SFloat (f : float)
  | SStr (s : string)
  | SData (d : Data).

(** What [yaml.safe_load] returns for a file: a mapping (its entries
    with a string for key), a string, a sequence (the strings among its
    items), or a value that is not iterable, with the name of its type
    ([NoneType] for an empty file, a number, a boolean). *)
Inductive Document : Type :=
  | Mapping (entries : gmap string Setting)
  | Text (s : string)
  | Sequence (items : list string)
  | NotIterable (type_name : string).

(** The process environment and [_config_data], the documents by file
    stem in the order they were loaded. *)
Record Config : Type := mkConfig {
  environ : gmap string string;
  _config_data : list (string * Document)
}.

(** [Config._is_float] *)
Definition _is_float (value : string) : bool :=
  match parse_float value with Some _ => true | None => false end.

(** [Config._convert_type] *)
Definition _convert_type (value : string) : result Setting :=
  if bool_decide (Str.lower value ∈ ["true"; "yes"; "1"]) then Ok (SBool true)
  else if bool_decide (Str.lower value ∈ ["false"; "no"; "0"]) then Ok (SBool false)
  else if isdigit value then n <- int_of_str value ;; Ok (SInt n)
  else if _is_float value then
    match parse_float value with
    | Some f => Ok (SFloat f)
    | None => Ok (SStr value)
    end
  else Ok (SStr value).

(** [key in config_data] is false *)
Definition silent (key : string) (doc : Document) : bool :=
  match doc with
  | Mapping entries => bool_decide (entries !! key = None)
  | Text s => negb (Str.contains key s)
  | Sequence items => bool_decide (key ∉ items)
  | NotIterable _ => false
  end.

(** [key in config_data], or [config_data[key]] after it, raises *)
Definition breaks (key : string) (doc : Document) : bool :=
  match doc with
  | Mapping _ => false
  | Text s => Str.contains key s
  | Sequence items => bool_decide (key ∈ items)
  | NotIterable _ => true
  end.

(** The loop of [get] over the documents.  On a string the test is
    the one for a substring and the lookup that follows it raises; on a
    sequence the test is membership, and the lookup raises as well. *)
Fixpoint lookup_files (key : string) (default : Setting)
    (docs : list (string * Document)) : result Setting :=
  match docs with
  | [] => Ok default
  | (_, Mapping entries) :: rest =>
      match entries !! key with
      | Some v => Ok v
      | None => lookup_files key default rest
      end
  | (_, Text s) :: rest =>
      if Str.contains key s
      then Raise (mkExn TypeError "string indices must be integers, not 'str'")
      else lookup_files key default rest
  | (_, Sequence items) :: rest =>
      if bool_decide (key ∈ items)
      then Raise (mkExn TypeError "list indices must be integers or slices, not str")
      else lookup_files key default rest
  | (_, NotIterable type_name) :: _ =>
      Raise (mkExn TypeError ("argument of type '" +:+ type_name +:+ "' is not iterable"))
  end.

(** [Config.get] *)
Definition get (self : Config) (key : string) (default : Setting) : result Setting :=
  match environ self !! upper key with
  | Some env_value => _convert_type env_value
  | None => lookup_files key default (_config_data self)
  end.

(** [int(x)] *)
Definition py_int (x : Setting) : result Z :=
  match x with
  | SNone => Raise (mkExn TypeError "int() argument must be a string or a number")
  | SBool b => Ok (if b then 1 else 0)%Z
  | SInt n => Ok n
  | SFloat f => int_of_float f
  | SStr s => int_of_str s
  | SData _ => Raise (mkExn TypeError "int() argument must be a string or a number")
  end.

(** [bool(x)] *)
Definition py_bool (x : Setting) : bool :=
  match x with
  | SNone => false
  | SBool b => b
  | SInt n => negb (n =? 0)%Z
  | SFloat f => float_truth f
  | SStr s => negb (String.eqb s "")
  | SData d => data_truth d
  end.

(** The property [debug_mode] *)
Definition debug_mode (self : Config) : result bool :=
  x <- get self "DEBUG_MODE" (SBool false) ;; Ok (py_bool x).

(** The property [enable_code_execution] *)
Definition enable_code_execution (self : Config) : result bool :=
  x <- get self "ENABLE_CODE_EXECUTION" (SBool true) ;; Ok (py_bool x).

(** The property [enable_desktop_automation] *)
Definition enable_desktop_automation (self : Config) : result bool :=
  x <- get self "ENABLE_DESKTOP_AUTOMATION" (SBool true) ;; Ok (py_bool x).

(** What the property [allowed_modules] returns: the names it split off
    a string, or the value as it found it. *)
Inductive Modules : Type :=
  | Names (names : list string)
  | AsIs (modules : Setting).

(** The property [allowed_modules] *)
Definition allowed_modules (self : Config) : result Modules :=
  modules <- get self "ALLOWED_MODULES" (SStr "os,sys,math,datetime,json,re,random") ;;
  match modules with
  | SStr s => Ok (Names (map Str.strip (split "," s)))
  | _ => Ok (AsIs modules)
  end.

(** The property [sandbox_timeout] *)
Definition sandbox_timeout (self : Config) : result Z :=
  x <- get self "SANDBOX_TIMEOUT" (SInt 30) ;; py_int x.

End Settings.

(** *** Recorded answers for the examples *)

Definition recorded_float (s : string) : option Q :=
  if String.eqb s "0.5" then Some (1 # 2) else None.

Definition recorded_int (s : string) : result Z :=
  if isdigit s then Ok (int_of_digits s)
  else Raise (mkExn ValueError ("invalid literal for int() with base 10: '" +:+ s +:+ "'")).

Definition recorded_primitives : Primitives := {|
  float := Q;
  parse_float := recorded_float;
  int_of_float := fun f => Ok (Z.quot (Qnum f) (Zpos (Qden f)));
  int_of_str := recorded_int;
  float_truth := fun f => negb (Qeq_bool f 0);
  Data := list string;
  data_truth := fun d => match d with [] => false | _ => true end
|}.

(** An environment that sets three variables, and no file. *)
Definition sample_config : @Config recorded_primitives :=
  @mkConfig recorded_primitives
    (<["SANDBOX_TIMEOUT" := "45"]>
       (<["ENABLE_CODE_EXECUTION" := "off"]>
          (<["ALLOWED_MODULES" := "os,math"]> ∅)))
    [].

(** No variable, and an empty file before the one with the settings. *)
Definition broken_config : @Config recorded_primitives :=
  @mkConfig recorded_primitives ∅
    [("local", NotIterable "NoneType");
     ("settings", Mapping (<["SANDBOX_TIMEOUT" := SInt 10]> ∅))].

End Config.

(** * Properties *)

(** ** Strings *)

Module StrFacts.

Lemma prefix_app (p s : string) : String.prefix p (p +:+ s) = true.
Proof.
  induction p as [|c p IH]; simpl.
  - by destruct s.
  - rewrite IH. by destruct (ascii_dec c c).
Qed.

Lemma contains_prefix (sub s : string) :
  String.prefix sub s = true -> Str.contains sub s = true.
Proof. intros H. destruct s; simpl in *; by rewrite H. Qed.

Lemma contains_cons (sub : string) (c : ascii) (s : string) :
  Str.contains sub s = true -> Str.contains sub (String c s) = true.
Proof. intros H. simpl. rewrite H. apply orb_true_r. Qed.

(** A string contains each of its infixes. *)
Lemma contains_infix (sub pre post : string) :
  Str.contains sub (pre +:+ sub +:+ post) = true.
Proof.
  induction pre as [|c pre IH].
  - apply contains_prefix, (prefix_app sub post).
  - apply (contains_cons sub c (pre +:+ sub +:+ post)), IH.
Qed.

Lemma contains_app_r (sub pre s : string) :
  Str.contains sub s = true -> Str.contains sub (pre +:+ s) = true.
Proof.
  intros H. induction pre as [|c pre IH]; [done|].
  apply (contains_cons sub c (pre +:+ s)), IH.
Qed.

Lemma prefix_app_l (sub s post : string) :
  String.prefix sub s = true -> String.prefix sub (s +:+ post) = true.
Proof.
  revert s. induction sub as [|a sub IH]; intros s H.
  - by destruct (s +:+ post).
  - destruct s as [|b s]; [done|]. simpl in *.
    destruct (ascii_dec a b); [|done]. by apply IH.
Qed.

Lemma contains_app_l (sub s post : string) :
  Str.contains sub s = true -> Str.contains sub (s +:+ post) = true.
Proof.
  induction s as [|c s IH]; intros H.
  - apply contains_prefix, (prefix_app_l sub "" post).
    simpl in H. by rewrite orb_false_r in H.
  - simpl in H. apply orb_true_iff in H as [H|H].
    + apply contains_prefix, (prefix_app_l sub (String c s) post), H.
    + apply (contains_cons sub c (s +:+ post)), IH, H.
Qed.

(** An element of a list is contained in the joined list. *)
Lemma contains_join (sub sep x : string) (l : list string) :
  x ∈ l -> Str.contains sub x = true -> Str.contains sub (Str.join sep l) = true.
Proof.
  intros Hin Hx. induction l as [|y l IH]; [by apply elem_of_nil in Hin|].
  apply elem_of_cons in Hin as [->|Hin].
  - destruct l as [|z l]; [done|].
    change (Str.join sep (y :: z :: l)) with (y +:+ (sep +:+ Str.join sep (z :: l))).
    by apply contains_app_l.
  - destruct l as [|z l]; [by apply elem_of_nil in Hin|].
    change (Str.join sep (y :: z :: l)) with (y +:+ (sep +:+ Str.join sep (z :: l))).
    apply contains_app_r, contains_app_r. by apply IH.
Qed.

Lemma prefix_cons (a b : ascii) (p s : string) :
  String.prefix (String a p) (String b s) =
  if ascii_dec a b then String.prefix p s else false.
Proof. reflexivity. Qed.

Lemma startswith_dunder (s : string) :
  Str.startswith s "__" || Str.startswith s "_" = Str.startswith s "_".
Proof.
  unfold Str.startswith. destruct s as [|a s]; [done|].
  rewrite !prefix_cons. destruct (ascii_dec "_" a); [|done].
  destruct s as [|b s]; [done|]. rewrite prefix_cons.
  destruct (ascii_dec "_" b); destruct s; done.
Qed.

End StrFacts.

(** ** Intent recognition *)

Module IntentFacts.

Import Intent.

Section Conversion.

Context {R : Runtime}.

Lemma try_except_ok {A} (a : A) classes handler :
  try_except (Ok a) classes handler = Ok a.
Proof. reflexivity. Qed.

Lemma try_except_raise {A} (e : PyExn) classes (handler : PyExn -> result A) :
  try_except (Raise e) classes handler =
  if bool_decide (exn_class e ∈ classes) then handler e else Raise e.
Proof. reflexivity. Qed.

(** The conversion of a captured string, kind by kind. *)
Lemma convert_int (s : string) :
  _convert_parameter_type (VStr s) "int" =
  Ok (match int_of_str s with Some n => VInt n | None => VStr s end).
Proof.
  unfold _convert_parameter_type, convert_body; cbn. unfold int_str.
  by destruct (int_of_str s).
Qed.

Lemma convert_float (s : string) :
  _convert_parameter_type (VStr s) "float" =
  Ok (match float_of_str s with Some x => VFloat x | None => VStr s end).
Proof.
  unfold _convert_parameter_type, convert_body; cbn.
  by destruct (float_of_str s).
Qed.

Lemma convert_none (param_type : string) :
  _convert_parameter_type VNone param_type = Ok VNone.
Proof. reflexivity. Qed.

Lemma convert_str_ok (s param_type : string) :
  exists v, _convert_parameter_type (VStr s) param_type = Ok v.
Proof.
  unfold _convert_parameter_type, convert_body; cbn.
  repeat case_match; cbn; eauto; unfold int_str;
    repeat match goal with
    | |- context [int_of_str ?c] => destruct (int_of_str c); cbn
    | |- context [float_of_str ?c] => destruct (float_of_str c); cbn
    end; eauto.
Qed.

(** A captured group, text or [None], always converts. *)
Lemma convert_group_ok (g : option string) (param_type : string) :
  exists v, _convert_parameter_type (of_group g) param_type = Ok v.
Proof.
  destruct g as [s|]; [apply convert_str_ok | by exists VNone].
Qed.

(** C6: conversion of a captured string is total.  Whatever the declared
    kind, a captured string converts to a value without raising, as does
    a group that captured nothing; and under [int] and [float] a string
    that does not parse comes back unchanged. *)
Theorem convert_parameter_type_total (s param_type : string) :
  (exists v, _convert_parameter_type (VStr s) param_type = Ok v) /\
  _convert_parameter_type VNone param_type = Ok VNone /\
  _convert_parameter_type (VStr s) "int" =
    Ok (match int_of_str s with Some n => VInt n | None => VStr s end) /\
  _convert_parameter_type (VStr s) "float" =
    Ok (match float_of_str s with Some x => VFloat x | None => VStr s end).
Proof.
  split; [apply convert_str_ok|].
  split; [apply convert_none|].
  split; [apply convert_int | apply convert_float].
Qed.

(** Converting twice under a kind other than [bool]. *)
Lemma convert_twice (value v : PyVal) (param_type : string) :
  String.eqb param_type "bool" = false ->
  _convert_parameter_type value param_type = Ok v ->
  _convert_parameter_type v param_type = Ok v.
Proof.
  intros Hb. unfold _convert_parameter_type, convert_body. rewrite Hb.
  destruct (String.eqb param_type "int") eqn:Hint.
  { destruct value as [| b | n | x | s | p | x y]; cbn; try (by intros [= <-]).
    - destruct (int_of_float x) as [n|e] eqn:Hx; cbn.
      + by intros [= <-].
      + case_bool_decide; [|done]. intros [= <-]. cbn.
        rewrite Hx. cbn. by rewrite bool_decide_eq_true_2.
    - unfold int_str. destruct (int_of_str s) as [n|] eqn:Hs; cbn.
      + by intros [= <-].
      + intros [= <-]. cbn. unfold int_str. by rewrite Hs. }
  destruct (String.eqb param_type "float") eqn:Hfloat.
  { destruct value as [| b | n | x | s | p | x y]; cbn; try (by intros [= <-]).
    - destruct (float_of_int (Z.b2z b)) as [x|e] eqn:Hf; cbn.
      + by intros [= <-].
      + case_bool_decide; [|done]. intros [= <-]. cbn.
        rewrite Hf. cbn. by rewrite bool_decide_eq_true_2.
    - destruct (float_of_int n) as [x|e] eqn:Hf; cbn.
      + by intros [= <-].
      + case_bool_decide; [|done]. intros [= <-]. cbn.
        rewrite Hf. cbn. by rewrite bool_decide_eq_true_2.
    - destruct (float_of_str s) as [x|] eqn:Hs; cbn.
      + by intros [= <-].
      + intros [= <-]. cbn. by rewrite Hs. }
  destruct (String.eqb param_type "coordinates") eqn:Hcoord.
  { destruct value as [| b | n | x | s | p | x y]; cbn; try (by intros [= <-]).
    destruct (Str.findall_digits s) as [|c0 [|c1 rest]] eqn:Hd; cbn;
      try (by intros [= <-]).
    unfold int_str.
    destruct (int_of_str c0) as [x|] eqn:H0; cbn.
    - destruct (int_of_str c1) as [y|] eqn:H1; cbn.
      + by intros [= <-].
      + intros [= <-]. cbn. rewrite Hd. cbn. unfold int_str. by rewrite H0, H1.
    - intros [= <-]. cbn. rewrite Hd. cbn. unfold int_str. by rewrite H0. }
  destruct (String.eqb param_type "path") eqn:Hpath.
  { destruct value as [| b | n | x | s | p | x y]; cbn; by intros [= <-]. }
  destruct value; cbn; intros [= <-]; done.
Qed.

(** A second conversion under [bool] fails on everything but [None]. *)
Lemma convert_bool_again (value v : PyVal) :
  _convert_parameter_type value "bool" = Ok v ->
  v = VNone \/
  exists b, v = VBool b /\
    _convert_parameter_type v "bool" =
      Raise (exn AttributeError "object has no attribute 'lower'").
Proof.
  destruct value as [| b | n | x | s | p | x y]; cbn; try done.
  - intros [= <-]. by left.
  - intros [= <-]. right. eexists. split; [done|]. reflexivity.
Qed.

(** C5, as the code has it: conversion is idempotent under every kind
    but [bool].  If converting a value under a kind other than [bool]
    returns [v], converting [v] again under that kind returns [v];
    under [bool] the result is [None] or a boolean, and converting a
    boolean again raises [AttributeError]. *)
Theorem convert_idempotent_except_bool (value v : PyVal) (param_type : string) :
  _convert_parameter_type value param_type = Ok v ->
  (param_type <> "bool" -> _convert_parameter_type v param_type = Ok v) /\
  (param_type = "bool" ->
     v = VNone \/
     exists b, v = VBool b /\
       _convert_parameter_type v "bool" =
         Raise (exn AttributeError "object has no attribute 'lower'")).
Proof.
  intros H. split.
  - intros Hne. apply (convert_twice value); [|done].
    by apply String.eqb_neq.
  - intros ->. by apply (convert_bool_again value).
Qed.

End Conversion.

(** C5 as stated fails: "yes" converts to [True] under [bool], and
    [True] does not convert to itself, the second call raises. *)
Lemma convert_bool_not_idempotent :
  @_convert_parameter_type decimal_runtime (VStr "yes") "bool" = Ok (VBool true) /\
  @_convert_parameter_type decimal_runtime (VBool true) "bool" <> Ok (VBool true).
Proof. split; [reflexivity | discriminate]. Qed.

Example convert_coordinates :
  @_convert_parameter_type decimal_runtime (VStr "500,300") "coordinates"
  = Ok (VCoords 500 300).
Proof. reflexivity. Qed.

Example convert_one_coordinate :
  @_convert_parameter_type decimal_runtime (VStr "500") "coordinates" = Ok VNone.
Proof. reflexivity. Qed.

Example convert_malformed_int :
  @_convert_parameter_type decimal_runtime (VStr "4x2") "int" = Ok (VStr "4x2").
Proof. reflexivity. Qed.

Example convert_bool_word :
  @_convert_parameter_type decimal_runtime (VStr "Enable") "bool" = Ok (VBool true).
Proof. reflexivity. Qed.

Lemma convert_idempotent_witness :
  @_convert_parameter_type decimal_runtime (VInt 42) "int" = Ok (VInt 42).
Proof.
  apply (@convert_idempotent_except_bool decimal_runtime (VStr " 42") (VInt 42) "int");
    [reflexivity | discriminate].
Defined.

Section Extraction.

Context {R : Runtime}.

(** One turn of the extraction loop returns, and binds no name but its
    own. *)
Lemma extract_one_ok (m : Match) (k : string) (p : IntentParameter)
    (d : gmap string PyVal) :
  exists d', extract_one m k p d = Ok d' /\
    (forall k', k' <> k -> d' !! k' = d !! k') /\
    (groupdict m !! k = None -> required p = false -> default p <> VNone ->
       d' !! k = Some (default p)) /\
    (forall g, groupdict m !! k = Some g ->
       _convert_parameter_type (of_group g) (p_type p) = Ok (dict_get d' k) /\
       is_Some (d' !! k)).
Proof.
  unfold extract_one. destruct (groupdict m !! k) as [g|] eqn:Hg.
  - destruct (convert_group_ok g (p_type p)) as [v Hv]. rewrite Hv. cbn.
    exists (<[k := v]> d). split; [done|]. split; [|split].
    + intros k' Hne. by rewrite lookup_insert_ne.
    + done.
    + intros g' [= <-]. unfold dict_get. rewrite lookup_insert_eq. by split.
  - destruct (required p) eqn:Hreq; cbn.
    + exists d. repeat split; try done. 
    + destruct (is_none (default p)) eqn:Hd; cbn.
      * exists d. repeat split; try done.
        intros _ _ Hne. by destruct (default p).
      * exists (<[k := default p]> d). split; [done|]. split; [|split].
        -- intros k' Hne. by rewrite lookup_insert_ne.
        -- intros _ _ _. by rewrite lookup_insert_eq.
        -- done.
Qed.

(** The loop returns; names that are no key of the template keep their
    binding, and a key has the binding its own turn gave it. *)
Lemma extract_loop_ok (m : Match) (ps : list (string * IntentParameter))
    (d : gmap string PyVal) :
  exists d', extract_loop m ps (Ok d) = Ok d' /\
    (forall k, k ∉ map fst ps -> d' !! k = d !! k) /\
    (forall k p, NoDup (map fst ps) -> (k, p) ∈ ps ->
       (groupdict m !! k = None -> required p = false -> default p <> VNone ->
          d' !! k = Some (default p)) /\
       (forall g, groupdict m !! k = Some g ->
          _convert_parameter_type (of_group g) (p_type p) = Ok (dict_get d' k))).
Proof.
  revert d. induction ps as [|[k0 p0] ps IH]; intros d.
  - exists d. split; [done|]. split; [done|].
    intros k p _ Hin. by apply elem_of_nil in Hin.
  - cbn. destruct (extract_one_ok m k0 p0 d) as (d1 & H1 & Hother & Hdef & Hgrp).
    rewrite H1. destruct (IH d1) as (d' & H' & Hkeep & Hkeys).
    exists d'. split; [exact H'|]. split.
    + intros k Hk. cbn in Hk. apply not_elem_of_cons in Hk as [Hne Hk].
      rewrite (Hkeep k Hk). by apply Hother.
    + intros k p Hnd Hin. cbn in Hnd. apply NoDup_cons in Hnd as [Hfresh Hnd].
      apply elem_of_cons in Hin as [[= -> ->]|Hin].
      * rewrite (Hkeep k0 Hfresh). split; [exact Hdef|].
        intros g Hg. unfold dict_get. rewrite (Hkeep k0 Hfresh).
        by destruct (Hgrp g Hg) as [? _].
      * by apply Hkeys.
Qed.

Lemma extract_parameters_ok (i : Intent) (m : Match) (text : string) :
  exists d, _extract_parameters i m text = Ok d.
Proof.
  destruct (extract_loop_ok m (parameters i) ∅) as (d & H & _). by exists d.
Qed.

(** C4, as the code has it: a parameter that is not required, has a
    default, and whose name is no named group of the matched pattern is
    bound to its default.  ([parameters] is a dictionary: its keys are
    distinct.) *)
Theorem extract_default_when_absent (i : Intent) (m : Match) (text : string)
    (param_name : string) (param : IntentParameter) :
  NoDup (map fst (parameters i)) ->
  (param_name, param) ∈ parameters i ->
  required param = false ->
  default param <> VNone ->
  groupdict m !! param_name = None ->
  exists extracted,
    _extract_parameters i m text = Ok extracted /\
    extracted !! param_name = Some (default param).
Proof.
  intros Hnd Hin Hreq Hdef Hgroup.
  destruct (extract_loop_ok m (parameters i) ∅) as (d & H & _ & Hkeys).
  exists d. split; [exact H|].
  destruct (Hkeys param_name param Hnd Hin) as [Hd _]. by apply Hd.
Qed.

End Extraction.

(** C4 as stated fails twice.  In "take a screenshot" the group
    [save_path] of the matched pattern captures nothing, [groupdict()]
    has it with [None], and [save_path] is bound to [None], not to the
    default "desktop".  And a required parameter that is no group of
    the pattern stays unbound, default or not. *)
Lemma default_not_assigned :
  (exists pi,
     parse_intent screenshot_recognizer "take a screenshot" = Ok (Some pi) /\
     name (intent pi) = "take_screenshot" /\
     extracted_params pi !! "save_path" = Some VNone) /\
  (exists extracted,
     _extract_parameters launch_intent (mkMatch "launch" "launch" ∅) "launch"
       = Ok extracted /\
     extracted !! "app_name" = None).
Proof.
  split.
  - eexists. split; [reflexivity|]. split; reflexivity.
  - eexists. split; reflexivity.
Qed.

(** The pattern of "system status" has no group, and [info_type] takes
    its default. *)
Lemma extract_default_witness :
  exists extracted,
    @_extract_parameters decimal_runtime (system_info_intent None)
      (mkMatch "system status" "system status" ∅) "system status" = Ok extracted /\
    extracted !! "info_type" = Some (VStr "general").
Proof.
  apply (@extract_default_when_absent decimal_runtime (system_info_intent None)
           (mkMatch "system status" "system status" ∅) "system status" "info_type"
           (mkParam "info_type" "string" false "" (VStr "general") None)).
  - cbn. apply NoDup_singleton.
  - cbn. apply list_elem_of_singleton. reflexivity.
  - reflexivity.
  - discriminate.
  - reflexivity.
Defined.

Section Confidence.

Context {R : Runtime}.

Lemma Qgtb_lt (a b : Q) : Qgtb a b = true <-> (b < a)%Q.
Proof.
  unfold Qgtb. rewrite negb_true_iff. split.
  - intros H. apply Qnot_le_lt. intros Hle.
    apply Qle_bool_iff in Hle. congruence.
  - intros H. destruct (Qle_bool a b) eqn:Hle; [|done].
    apply Qle_bool_iff in Hle. by apply Qlt_not_le in H.
Qed.

Lemma Qgtb_le (a b : Q) : Qgtb a b = false <-> (a <= b)%Q.
Proof.
  unfold Qgtb. rewrite negb_false_iff. apply Qle_bool_iff.
Qed.

(** Python's [min(a, 1.0)] is the minimum. *)
Lemma py_min_Qmin (a : Q) : (py_min a 1 == Qmin 1 a)%Q.
Proof.
  unfold py_min. destruct (Qgtb a 1) eqn:H.
  - apply Qgtb_lt in H. symmetry. apply Q.min_l. by apply Qlt_le_weak.
  - apply Qgtb_le in H. symmetry. by apply Q.min_r.
Qed.



Lemma fraction_nonneg (k n : nat) : (0 <= Z.of_nat k # Pos.of_nat n)%Q.
Proof. unfold Qle. cbn. lia. Qed.

(** The confidence of a match lies between 0.70 and 1. *)
Lemma confidence_bounds (i : Intent) (m : Match) (extracted : gmap string PyVal) :
  (0.7 <= _calculate_confidence i m extracted)%Q /\
  (_calculate_confidence i m extracted <= 1)%Q.
Proof.
  unfold _calculate_confidence.
  set (base := match List.filter required (map snd (parameters i)) with
               | [] => 0.7%Q
               | _ :: _ => _
               end).
  assert (Hbase : (0.7 <= base)%Q).
  { subst base. destruct (List.filter required (map snd (parameters i))) as [|p ps].
    - apply Qle_refl.
    - match goal with |- (_ <= _ + ?f * _)%Q => assert (Hf : (0 <= f)%Q) by apply fraction_nonneg;
        generalize dependent f end.
      intros f Hf. rewrite <- (Qplus_0_r 0.7) at 1.
      apply Qplus_le_r. apply Qmult_le_0_compat; [done|]. by unfold Qle. }
  assert (Hexact : (0.7 <= (if exact_match m then base + 0.1 else base))%Q).
  { destruct (exact_match m); [|done].
    rewrite <- (Qplus_0_r 0.7). apply Qplus_le_compat; [done|]. by unfold Qle. }
  generalize dependent (if exact_match m then (base + 0.1)%Q else base).
  intros c Hc. unfold py_min. destruct (Qgtb c 1) eqn:H.
  - split; [by unfold Qle | apply Qle_refl].
  - split; [done | by apply Qgtb_le].
Qed.

End Confidence.

Section Parsing.

Context {R : Runtime}.

Lemma try_pattern_pick (text : string) (i : Intent) (best : Best) (p : Pattern) :
  try_pattern text i best p =
  Ok (fold_left pick (map (candidate text) (matches_of text i [p])) best).
Proof.
  unfold try_pattern, matches_of. cbn. destruct (re_search p text) as [m|]; [|done].
  cbn. unfold candidate, pick. cbn.
  destruct (extract_parameters_ok i m text) as [d Hd]. rewrite Hd. cbn.
  by destruct (Qgtb _ _).
Qed.

Lemma matches_of_cons (text : string) (i : Intent) (p : Pattern) (ps : list Pattern) :
  matches_of text i (p :: ps) = (matches_of text i [p] ++ matches_of text i ps)%list.
Proof. unfold matches_of. cbn. by rewrite app_nil_r. Qed.

Lemma try_patterns_pick (text : string) (i : Intent) (ps : list Pattern) (best : Best) :
  try_patterns text i ps best =
  Ok (fold_left pick (map (candidate text) (matches_of text i ps)) best).
Proof.
  unfold try_patterns. revert best. induction ps as [|p ps IH]; intros best; [done|].
  cbn [fold_left]. cbn [rbind]. rewrite try_pattern_pick.
  rewrite (matches_of_cons text i p ps), map_app, fold_left_app. apply IH.
Qed.

Lemma try_intents_pick (self : IntentRecognizer) (text : string)
    (entries : list (string * Intent)) (best : Best) :
  (forall entry, entry ∈ entries -> is_Some (compiled_patterns self !! fst entry)) ->
  fold_left (fun acc entry => b <- acc ;; try_intent self text b entry) entries (Ok best) =
  Ok (fold_left pick (map (candidate text) (matches_in self text entries)) best).
Proof.
  revert best. induction entries as [|entry entries IH]; intros best Hall; [done|].
  cbn [fold_left rbind]. unfold try_intent at 2.
  destruct (Hall entry) as [ps Hps]; [apply list_elem_of_here|].
  rewrite Hps, try_patterns_pick.
  change (matches_in self text (entry :: entries))
    with ((match compiled_patterns self !! fst entry with
           | Some ps => matches_of text (snd entry) ps
           | None => []
           end) ++ matches_in self text entries)%list.
  rewrite Hps, map_app, fold_left_app. apply IH.
  intros e He. apply Hall. by apply list_elem_of_further.
Qed.

Lemma elem_of_dict_set {A} (k : string) (v : A) (d : list (string * A)) entry :
  entry ∈ dict_set k v d -> entry = (k, v) \/ entry ∈ d.
Proof.
  induction d as [|[k' v'] d IH]; cbn.
  - intros H%list_elem_of_singleton. by left.
  - destruct (String.eqb k k').
    + intros [->|H]%elem_of_cons; [by left|]. right. by apply list_elem_of_further.
    + intros [->|H]%elem_of_cons; [right; apply list_elem_of_here|].
      destruct (IH H) as [->|Hd]; [by left|]. right. by apply list_elem_of_further.
Qed.

(** Every template of a recognizer in use has its compiled patterns. *)
Lemma registered_compiled (self : IntentRecognizer) :
  registered self ->
  forall entry, entry ∈ intents self -> is_Some (compiled_patterns self !! fst entry).
Proof.
  induction 1 as [|self i h self' Hreg IH Hstep].
  - intros entry Hin. by apply elem_of_nil in Hin.
  - unfold register_intent in Hstep.
    destruct (compile_all (patterns (with_handler i h))) as [cs|e]; [|done].
    injection Hstep as <-. cbn. intros entry Hin.
    apply elem_of_dict_set in Hin as [->|Hin]; cbn.
    + rewrite lookup_insert_eq. by eexists.
    + destruct (decide (name (with_handler i h) = fst entry)) as [<-|Hne].
      * rewrite lookup_insert_eq. by eexists.
      * rewrite lookup_insert_ne; [|done]. by apply IH.
Qed.

Lemma pick_gt (best : option ParsedIntent) (c : Q) (q : ParsedIntent) :
  (c < confidence q)%Q -> pick (best, c) q = (Some q, confidence q).
Proof. intros H. unfold pick. cbn [snd]. by rewrite (proj2 (Qgtb_lt _ _) H). Qed.

Lemma pick_le (best : option ParsedIntent) (c : Q) (q : ParsedIntent) :
  (confidence q <= c)%Q -> pick (best, c) q = (best, c).
Proof. intros H. unfold pick. cbn [snd]. by rewrite (proj2 (Qgtb_le _ _) H). Qed.

(** What the scan keeps: the running best is left as it was when no
    candidate beats it, and is otherwise the first candidate no other
    beats, all earlier ones being strictly below it. *)
Lemma fold_pick (cs : list ParsedIntent) (best : option ParsedIntent) (c : Q) :
  (fold_left pick cs (best, c) = (best, c) /\
   forall q, q ∈ cs -> (confidence q <= c)%Q) \/
  (exists before pi after,
     cs = (before ++ pi :: after)%list /\
     fold_left pick cs (best, c) = (Some pi, confidence pi) /\
     (c < confidence pi)%Q /\
     (forall q, q ∈ before -> (confidence q < confidence pi)%Q) /\
     (forall q, q ∈ after -> (confidence q <= confidence pi)%Q)).
Proof.
  revert best c. induction cs as [|q cs IH]; intros best c.
  - left. split; [done|]. intros q Hq. by apply elem_of_nil in Hq.
  - cbn [fold_left]. destruct (Qlt_le_dec c (confidence q)) as [Hq|Hq].
    + rewrite (pick_gt best c q Hq). right.
      destruct (IH (Some q) (confidence q))
        as [[Hsame Hle]|(before & pi & after & -> & Hfold & Hlt & Hbefore & Hafter)].
      * exists [], q, cs. split; [done|]. split; [done|]. split; [done|].
        split; [|done]. intros q' Hq'. by apply elem_of_nil in Hq'.
      * exists (q :: before), pi, after.
        split; [done|]. split; [done|].
        split; [by apply Qlt_trans with (confidence q)|].
        split; [|done].
        intros q' [->|Hq']%elem_of_cons; [done|]. by apply Hbefore.
    + rewrite (pick_le best c q Hq).
      destruct (IH best c)
        as [[Hsame Hle]|(before & pi & after & -> & Hfold & Hlt & Hbefore & Hafter)].
      * left. split; [done|]. intros q' [->|Hq']%elem_of_cons; [done|]. by apply Hle.
      * right. exists (q :: before), pi, after.
        split; [done|]. split; [done|]. split; [done|]. split; [|done].
        intros q' [->|Hq']%elem_of_cons; [|by apply Hbefore].
        by apply Qle_lt_trans with c.
Qed.

Lemma candidate_confidence (text : string) (im : Intent * Match) :
  (0.7 <= confidence (candidate text im))%Q /\ (confidence (candidate text im) <= 1)%Q.
Proof. unfold candidate. cbn. apply confidence_bounds. Qed.




End Parsing.


Section Execution.

Context {R : Runtime}.

Lemma failure_success (msg : string) : failure msg !! "success" = Some (VBool false).
Proof. unfold failure. by rewrite lookup_insert_ne, lookup_insert_eq. Qed.

Lemma failure_error (msg : string) : failure msg !! "error" = Some (VStr msg).
Proof. unfold failure. by rewrite lookup_insert_eq. Qed.

Lemma validate_loop_raise (d : gmap string PyVal) ps (e : PyExn) :
  validate_loop d ps (Raise e) = Raise e.
Proof. induction ps as [|entry ps IH]; [done|]. apply IH. Qed.

(** When the loop returns, the errors collected before are kept, and
    every required parameter without a value has its message. *)
Lemma validate_loop_missing (d : gmap string PyVal) ps (acc errors : list string) :
  validate_loop d ps (Ok acc) = Ok errors ->
  (forall x, x ∈ acc -> x ∈ errors) /\
  (forall k p, (k, p) ∈ ps -> required p = true -> is_none (dict_get d k) = true ->
     missing_msg k ∈ errors).
Proof.
  revert acc. induction ps as [|[k0 p0] ps IH]; intros acc.
  - intros [= <-]. split; [done|]. intros k p H. by apply elem_of_nil in H.
  - unfold validate_loop. cbn [fold_left rbind fst snd].
    destruct (validate_one d acc k0 p0) as [acc'|e] eqn:Hone.
    + intros Hloop. destruct (IH acc' Hloop) as [Hkeep Hmissing].
      assert (Hacc : forall x, x ∈ acc -> x ∈ acc').
      { unfold validate_one in Hone.
        destruct (required p0 && is_none (dict_get d k0)).
        - injection Hone as <-. intros x Hx. apply elem_of_app. by left.
        - destruct (truthy (dict_get d k0) && pattern_truthy (validation_pattern p0)).
          + destruct (re_match _ _) as [[]|]; cbn in Hone; [| |done].
            * by injection Hone as <-.
            * injection Hone as <-. intros x Hx. apply elem_of_app. by left.
          + by injection Hone as <-. }
      split; [by auto|].
      intros k p [[= -> ->]|Hin]%elem_of_cons Hreq Hnone; [|by eauto].
      apply Hkeep. unfold validate_one in Hone. rewrite Hreq, Hnone in Hone.
      injection Hone as <-. apply elem_of_app. right. apply list_elem_of_here.
    + intros Hloop. fold (validate_loop d ps (Raise e)) in Hloop.
      by rewrite validate_loop_raise in Hloop.
Qed.

Lemma missing_msg_contains (k : string) : Str.contains k (missing_msg k) = true.
Proof. unfold missing_msg. apply (StrFacts.contains_infix k "Required parameter '"). Qed.

(** C7, as the code has it: when a required parameter has no value and
    a handler is bound, [execute_intent] returns [success = False];
    and when validation itself returns, the error is "Parameter
    validation failed: " followed by all collected errors joined with
    "; ", among them the one that names the parameter. *)
Theorem execute_intent_missing_required (pi : ParsedIntent) (h : Handler)
    (param_name : string) (param : IntentParameter) :
  handler (intent pi) = Some h ->
  (param_name, param) ∈ parameters (intent pi) ->
  required param = true ->
  is_none (dict_get (extracted_params pi) param_name) = true ->
  execute_intent pi !! "success" = Some (VBool false) /\
  forall errors, validation_errors pi = Ok errors ->
    missing_msg param_name ∈ errors /\
    execute_intent pi !! "error" =
      Some (VStr ("Parameter validation failed: " +:+ Str.join "; " errors)) /\
    Str.contains param_name
      ("Parameter validation failed: " +:+ Str.join "; " errors) = true.
Proof.
  intros Hh Hin Hreq Hnone.
  unfold execute_intent, _validate_parameters. rewrite Hh.
  destruct (validation_errors pi) as [errors|e] eqn:Hv; cbn [rbind].
  - destruct (validate_loop_missing _ _ _ _ Hv) as [_ Hmissing].
    specialize (Hmissing param_name param Hin Hreq Hnone).
    destruct errors as [|x errors]; [by apply elem_of_nil in Hmissing|].
    cbn [valid error negb length bool_decide show_error].
    rewrite bool_decide_eq_false_2 by done. cbn [negb].
    split; [apply failure_success|].
    intros errors' [= <-]. split; [done|]. split; [apply failure_error|].
    apply StrFacts.contains_app_r.
    apply (StrFacts.contains_join _ _ (missing_msg param_name)); [done|].
    apply missing_msg_contains.
  - split; [apply failure_success | done].
Qed.


End Execution.

(** C7 as stated fails when a validation pattern is malformed:
    "filename" is required and missing, [re.match] raises on the
    pattern of "mode", and the error is the message of [re.error],
    which does not name "filename". *)
Lemma missing_name_not_reported :
  handler (intent save_parsed) = Some failing_handler /\
  extracted_params save_parsed !! "filename" = None /\
  execute_intent save_parsed !! "success" = Some (VBool false) /\
  execute_intent save_parsed !! "error" = Some (VStr unbalanced_msg) /\
  Str.contains "filename" unbalanced_msg = false.
Proof. repeat split; reflexivity. Qed.

(** Two required parameters without a value: both messages, joined. *)
Lemma execute_intent_missing_witness :
  execute_intent copy_parsed !! "success" = Some (VBool false) /\
  forall errors, validation_errors copy_parsed = Ok errors ->
    missing_msg "destination" ∈ errors /\
    execute_intent copy_parsed !! "error" =
      Some (VStr ("Parameter validation failed: " +:+ Str.join "; " errors)) /\
    Str.contains "destination"
      ("Parameter validation failed: " +:+ Str.join "; " errors) = true.
Proof.
  apply (@execute_intent_missing_required decimal_runtime copy_parsed failing_handler
           "destination" (mkParam "destination" "string" true "" VNone None)).
  - reflexivity.
  - cbn. apply list_elem_of_further, list_elem_of_here.
  - reflexivity.
  - reflexivity.
Defined.

Lemma execute_intent_missing_joined :
  execute_intent copy_parsed !! "error" =
    Some (VStr "Parameter validation failed: Required parameter 'source' is missing; Required parameter 'destination' is missing").
Proof. reflexivity. Qed.


End IntentFacts.

(** ** The code sandbox *)

Module SandboxFacts.

Import Sandbox.

(** Induction on syntax trees, children included. *)
Lemma node_induction (Q : node -> Prop) :
  (forall names, Q (Import names)) ->
  (forall module names, Q (ImportFrom module names)) ->
  (forall func args, Q func -> Forall Q args -> Q (Call func args)) ->
  (forall value attr, Q value -> Q (Attribute value attr)) ->
  (forall id, Q (Name id)) ->
  (forall children, Forall Q children -> Q (Other children)) ->
  forall n, Q n.
Proof.
  intros HI HF HC HA HN HO.
  refine (fix go (n : node) : Q n :=
            match n with
            | Import names => HI names
            | ImportFrom module names => HF module names
            | Call func args =>
                HC func args (go func)
                  ((fix all (l : list node) : Forall Q l :=
                      match l with
                      | [] => @Lists.List.Forall_nil node Q
                      | c :: l' => @Lists.List.Forall_cons node Q c l' (go c) (all l')
                      end) args)
            | Attribute value attr => HA value attr (go value)
            | Name id => HN id
            | Other children =>
                HO children
                  ((fix all (l : list node) : Forall Q l :=
                      match l with
                      | [] => @Lists.List.Forall_nil node Q
                      | c :: l' => @Lists.List.Forall_cons node Q c l' (go c) (all l')
                      end) children)
            end).
Qed.

Lemma check_alias_keeps (v : list string) (a : alias) (x : string) :
  x ∈ v -> x ∈ check_alias v a.
Proof.
  intros H. unfold check_alias. case_bool_decide; [|done].
  apply elem_of_app. by left.
Qed.

Lemma check_aliases_keep (names : list alias) (v : list string) (x : string) :
  x ∈ v -> x ∈ fold_left check_alias names v.
Proof.
  revert v. induction names as [|a names IH]; intros v H; [done|].
  cbn. by apply IH, check_alias_keeps.
Qed.

(** Visiting a tree only adds violations. *)
Lemma visit_keeps (n : node) : forall (v : list string) (x : string),
  x ∈ v -> x ∈ visit n v.
Proof.
  induction n as [names | module names | func args IHf IHa | value attr IHv | id
                  | children IHc] using node_induction; intros v x H; cbn.
  - by apply check_aliases_keep.
  - unfold check_import_from. repeat case_match; try done.
    apply elem_of_app. by left.
  - assert (Hf : x ∈ visit func (check_call v func)).
    { apply IHf. unfold check_call. repeat case_match; try done.
      apply elem_of_app. by left. }
    revert Hf. generalize (visit func (check_call v func)).
    induction IHa as [|c args Hc _ IH]; intros w Hw; [done|].
    cbn. by apply IH, Hc.
  - apply IHv. unfold check_attribute. case_match; [|done].
    apply elem_of_app. by left.
  - done.
  - revert v H. induction IHc as [|c children Hc _ IH]; intros w Hw; [done|].
    cbn. by apply IH, Hc.
Qed.

Lemma visit_children_keep (children : list node) (v : list string) (x : string) :
  x ∈ v -> x ∈ fold_left (fun acc c => visit c acc) children v.
Proof.
  revert v. induction children as [|c children IH]; intros v H; [done|].
  cbn. by apply IH, visit_keeps.
Qed.

Lemma visit_children_found (children : list node) (c : node) (x : string) :
  c ∈ children ->
  (forall v, x ∈ visit c v) ->
  forall v, x ∈ fold_left (fun acc c => visit c acc) children v.
Proof.
  intros Hin Hc. induction children as [|c' children IH]; intros v.
  - by apply elem_of_nil in Hin.
  - cbn. apply elem_of_cons in Hin as [<-|Hin].
    + apply visit_children_keep, Hc.
    + by apply IH.
Qed.

Lemma check_aliases_found (names : list alias) (a : alias) (m : string) :
  a ∈ names ->
  Str.first_component (alias_name a) = m ->
  m ∈ prohibited_modules ->
  forall v, ("Prohibited import: " +:+ m) ∈ fold_left check_alias names v.
Proof.
  intros Hin Hm Hp. induction names as [|a' names IH]; intros v.
  - by apply elem_of_nil in Hin.
  - cbn. apply elem_of_cons in Hin as [<-|Hin].
    + apply check_aliases_keep. unfold check_alias. rewrite Hm.
      rewrite bool_decide_eq_true_2 by done.
      apply elem_of_app. right. apply list_elem_of_here.
    + by apply IH.
Qed.

(** The validator records every import of a prohibited module. *)
Lemma visit_records_import (m : string) (n : node) :
  imports m n ->
  m ∈ prohibited_modules ->
  forall v, ("Prohibited import: " +:+ m) ∈ visit n v.
Proof.
  intros Himp Hp. induction Himp as [names a Hin Hm | func args _ IH | func args c Hin _ IH
                                     | value attr _ IH | children c Hin _ IH]; intros v; cbn.
  - by apply (check_aliases_found names a m).
  - apply visit_children_keep, IH.
  - by apply (visit_children_found args c).
  - apply IH.
  - by apply (visit_children_found children c).
Qed.

Section Environment.

Context {P : Python}.

(** C1 fails on the code: for a text that parses to a tree with an
    [import os] and that RestrictedPython, when present, compiles
    without error, the validator records "Prohibited import: os", and
    yet [_validate_code] returns valid and [execute_code] runs the
    code: it succeeds whenever [exec] finishes. *)
Theorem validate_code_ignores_violations (code : string) (tree : node)
    (self : SafeExecutionEnvironment) (vars : option (gmap string Value)) (h : Heap) :
  ast_parse code = Ok tree ->
  imports "os" tree ->
  restricted_errors code = Ok [] ->
  "Prohibited import: os" ∈ visit tree [] /\
  _validate_code code = mkValidation true None /\
  success (fst (execute_code self code vars h)) =
    match status (py_exec code (exec_namespace self vars) h (timeout self)) with
    | Finished => true
    | _ => false
    end.
Proof.
  intros Hparse Himp Hres.
  assert (Hvalid : _validate_code code = mkValidation true None).
  { unfold _validate_code. rewrite Hparse. unfold restricted_errors in Hres.
    destruct compile_restricted as [errors_of|]; [|done]. by rewrite Hres. }
  split; [|split; [exact Hvalid|]].
  - apply (visit_records_import "os" tree Himp).
    unfold prohibited_modules. apply list_elem_of_here.
  - unfold execute_code. rewrite Hvalid. cbn.
    by destruct (status _).
Qed.

End Environment.

(** "import os" with the default environment and no RestrictedPython:
    valid, executed, successful. *)
Lemma validate_import_os_witness :
  "Prohibited import: os" ∈ visit (Other [Import [mkAlias "os" None]]) [] /\
  @_validate_code mini_python prog_import_os = mkValidation true None /\
  success (fst (execute_code mini_environment prog_import_os None ∅)) = true.
Proof.
  apply (@validate_code_ignores_violations mini_python prog_import_os
           (Other [Import [mkAlias "os" None]]) mini_environment None ∅).
  - reflexivity.
  - apply (imports_child "os" _ (Import [mkAlias "os" None])).
    + apply list_elem_of_here.
    + apply (imports_here "os" _ (mkAlias "os" None)); [apply list_elem_of_here | reflexivity].
  - reflexivity.
Defined.

Section Collect.

Context {P : Python}.


(** C10, as the code has it: when [_execute_persistent] returns
    [success = False] the session map is the one before the call, the
    same names bound to the same objects; when it returns [success =
    True] the extracted variables were merged into it.  (The objects
    themselves are shared with the namespace the code ran in.) *)
Theorem execute_persistent_session (self : CodeExecutor) (code : string) (h : Heap) :
  let result := fst (fst (_execute_persistent self code h)) in
  let self' := snd (fst (_execute_persistent self code h)) in
  (success result = false -> session_variables self' = session_variables self) /\
  (success result = true ->
     session_variables self' = variables result ∪ session_variables self).
Proof.
  unfold _execute_persistent.
  destruct (execute_code (environment self) code (Some (session_variables self)) h)
    as [result h'].
  destruct (success result) eqn:Hs; cbn; rewrite ?Hs; split; done.
Qed.

End Collect.

(** C10 as stated fails on shared objects.  After [x = [1]] the session
    holds the list; [x.append(2); 1/0] then fails, the session map
    still binds [x] to the same list, and the list is now [[1, 2]]. *)
Lemma failed_run_changes_session :
  let self1 := snd (fst (_execute_persistent mini_executor prog_bind_list ∅)) in
  let h1 := snd (_execute_persistent mini_executor prog_bind_list ∅) in
  let result := fst (fst (_execute_persistent self1 prog_append_fail h1)) in
  let self2 := snd (fst (_execute_persistent self1 prog_append_fail h1)) in
  let h2 := snd (_execute_persistent self1 prog_append_fail h1) in
  success result = false /\
  session_variables self2 = session_variables self1 /\
  session_view self1 h1 !! "x" = Some "[1]" /\
  session_view self2 h2 !! "x" = Some "[1, 2]" /\
  session_view self2 h2 <> session_view self1 h1.
Proof.
  intros self1 h1 result self2 h2.
  assert (H1 : session_view self1 h1 !! "x" = Some "[1]") by reflexivity.
  assert (H2 : session_view self2 h2 !! "x" = Some "[1, 2]") by reflexivity.
  split; [reflexivity|]. split; [reflexivity|].
  split; [exact H1|]. split; [exact H2|].
  intros H. rewrite H, H1 in H2. discriminate H2.
Qed.

Lemma execute_persistent_witness :
  let self1 := snd (fst (_execute_persistent mini_executor prog_bind_list ∅)) in
  let h1 := snd (_execute_persistent mini_executor prog_bind_list ∅) in
  let result := fst (fst (_execute_persistent self1 prog_append_fail h1)) in
  let self2 := snd (fst (_execute_persistent self1 prog_append_fail h1)) in
  success result = false /\ session_variables self2 = session_variables self1.
Proof.
  intros self1 h1 result self2.
  split; [reflexivity|].
  apply (proj1 (@execute_persistent_session mini_python self1 prog_append_fail h1)).
  reflexivity.
Defined.

Lemma extract_user_variables_example :
  @_extract_user_variables mini_python mini_environment ∅
    (<["os" := MModule "os"]> (<["f" := MFunction "f"]> (<["_t" := MInt 1]>
       (<["print" := MInt 2]> (<["n" := MInt 3]> (<["s" := MObject "{1, 2}"]> ∅))))))
  = <["n" := MInt 3]> (<["s" := MStr "{1, 2}"]> ∅).
Proof. reflexivity. Qed.

End SandboxFacts.

(** ** More on intent recognition *)

Module IntentMore.

Import Intent IntentFacts.

Section Extraction.

Context {R : Runtime}.




End Extraction.


Section Rejection.

Context {R : Runtime}.

Lemma failure_no_message (msg : string) : failure msg !! "message" = None.
Proof. unfold failure. by rewrite !lookup_insert_ne, lookup_empty. Qed.



End Rejection.

Section Scores.

Context {R : Runtime}.






Lemma filter_length_mono {A} (f g : A -> bool) (l : list A) :
  (forall x, f x = true -> g x = true) ->
  (length (List.filter f l) <= length (List.filter g l))%nat.
Proof.
  intros H. induction l as [|x l IH]; [done|]. cbn.
  destruct (f x) eqn:Hf.
  - rewrite (H x Hf). cbn. lia.
  - destruct (g x); cbn; lia.
Qed.

Lemma fraction_mono (a b n : nat) :
  (a <= b)%nat -> (Z.of_nat a # Pos.of_nat n <= Z.of_nat b # Pos.of_nat n)%Q.
Proof. intros H. unfold Qle. cbn. nia. Qed.

Lemma py_min_mono (a b : Q) : (a <= b)%Q -> (py_min a 1 <= py_min b 1)%Q.
Proof.
  intros H. rewrite !py_min_Qmin. by apply Q.min_le_compat_l.
Qed.

(** X4: extracting more never lowers the score.  If every parameter
    that has a value in [a] has one in [b], the confidence of the same
    match with [b] is at least the confidence with [a]. *)
Theorem confidence_monotone (i : Intent) (m : Match) (a b : gmap string PyVal) :
  (forall k, has_value a k = true -> has_value b k = true) ->
  (_calculate_confidence i m a <= _calculate_confidence i m b)%Q.
Proof.
  intros Hab. unfold _calculate_confidence. apply py_min_mono.
  destruct (List.filter required (map snd (parameters i))) as [|p ps].
  - destruct (exact_match m); apply Qle_refl.
  - set (l := p :: ps).
    assert (Hf : ((Z.of_nat (length (List.filter (fun param => has_value a (p_name param)) l))
                   # Pos.of_nat (length l)) <=
                  (Z.of_nat (length (List.filter (fun param => has_value b (p_name param)) l))
                   # Pos.of_nat (length l)))%Q).
    { apply fraction_mono, filter_length_mono. intros x. apply Hab. }
    assert (Hbase : forall x y : Q, (x <= y)%Q -> (0.7 + x * 0.3 <= 0.7 + y * 0.3)%Q).
    { intros x y Hxy. apply Qplus_le_r. apply Qmult_le_compat_r; [done|]. by unfold Qle. }
    destruct (exact_match m).
    + apply Qplus_le_l. by apply Hbase.
    + by apply Hbase.
Qed.

End Scores.



Lemma confidence_monotone_witness :
  (@_calculate_confidence decimal_runtime copy_intent (mkMatch "copy" "copy a b" ∅) ∅ <=
   @_calculate_confidence decimal_runtime copy_intent (mkMatch "copy" "copy a b" ∅)
     (<["source" := VStr "a"]> ∅))%Q.
Proof.
  apply (@confidence_monotone decimal_runtime copy_intent (mkMatch "copy" "copy a b" ∅)
           ∅ (<["source" := VStr "a"]> ∅)).
  intros k H. unfold has_value in H. by rewrite lookup_empty in H.
Defined.

Section Registry.

Context {R : Runtime}.

Lemma dict_set_keys {A} (k : string) (v : A) (d : list (string * A)) :
  map fst (dict_set k v d) =
  if bool_decide (k ∈ map fst d) then map fst d else (map fst d ++ [k])%list.
Proof.
  induction d as [|[k' v'] d IH]; [done|]. cbn.
  destruct (String.eqb k k') eqn:Hk.
  - apply String.eqb_eq in Hk as ->. cbn.
    rewrite bool_decide_eq_true_2; [done|apply list_elem_of_here].
  - apply String.eqb_neq in Hk. cbn. rewrite IH.
    destruct (bool_decide (k ∈ map fst d)) eqn:Hd.
    + apply bool_decide_eq_true_1 in Hd.
      rewrite bool_decide_eq_true_2; [done|by apply list_elem_of_further].
    + apply bool_decide_eq_false_1 in Hd.
      rewrite bool_decide_eq_false_2; [done|].
      intros [?|?]%elem_of_cons; done.
Qed.

Lemma dict_set_here {A} (k : string) (v : A) (d : list (string * A)) :
  (k, v) ∈ dict_set k v d.
Proof.
  induction d as [|[k' v'] d IH]; cbn; [apply list_elem_of_here|].
  destruct (String.eqb k k'); [apply list_elem_of_here|by apply list_elem_of_further].
Qed.

Lemma dict_set_other {A} (k : string) (v : A) (d : list (string * A))
    (k' : string) (v' : A) :
  k' <> k -> (k', v') ∈ dict_set k v d <-> (k', v') ∈ d.
Proof.
  intros Hne. induction d as [|[k0 v0] d IH]; cbn.
  - rewrite list_elem_of_singleton. split; [by intros [= -> _]|by intros ?%elem_of_nil].
  - destruct (String.eqb k k0) eqn:Hk.
    + apply String.eqb_eq in Hk as <-. rewrite !elem_of_cons.
      split; intros [[= ? ?]|H]; try done; by right.
    + rewrite !elem_of_cons, IH. done.
Qed.

Lemma dict_set_NoDup {A} (k : string) (v : A) (d : list (string * A)) :
  NoDup (map fst d) -> NoDup (map fst (dict_set k v d)).
Proof.
  intros Hnd. rewrite dict_set_keys. case_bool_decide; [done|].
  apply NoDup_app. split; [done|]. split; [|apply NoDup_singleton].
  intros x Hx ->%list_elem_of_singleton. done.
Qed.

Lemma with_handler_name (i : Intent) (h : option Handler) :
  name (with_handler i h) = name i.
Proof. by destruct h. Qed.

(** X5: what every recognizer in use satisfies.  The names of its
    templates are distinct, each template is stored under its own
    name, and the names that have compiled patterns are exactly those
    of the templates. *)
Theorem registered_invariant (self : IntentRecognizer) :
  registered self ->
  NoDup (map fst (intents self)) /\
  (forall k i, (k, i) ∈ intents self -> k = name i) /\
  (forall k, is_Some (compiled_patterns self !! k) <-> k ∈ map fst (intents self)).
Proof.
  induction 1 as [|self i h self' Hreg (Hnd & Hname & Hdom) Hstep].
  - split; [apply NoDup_nil_2|]. split.
    + intros k i H. by apply elem_of_nil in H.
    + intros k. cbn. rewrite lookup_empty. split; [by intros [? ?]|by intros ?%elem_of_nil].
  - unfold register_intent in Hstep.
    destruct (compile_all (patterns (with_handler i h))) as [cs|e]; [|done].
    injection Hstep as <-. cbn [intents compiled_patterns].
    split; [by apply dict_set_NoDup|]. split.
    + intros k i0 Hin. apply elem_of_dict_set in Hin as [[= -> ->]|Hin]; [done|].
      by apply Hname.
    + intros k. rewrite dict_set_keys.
      destruct (decide (k = name (with_handler i h))) as [->|Hne].
      * rewrite lookup_insert_eq. split; [intros _|by eexists].
        case_bool_decide; [done|]. apply elem_of_app. right. apply list_elem_of_here.
      * rewrite lookup_insert_ne by done. rewrite Hdom.
        case_bool_decide; [done|]. rewrite elem_of_app, list_elem_of_singleton.
        split; [by left|by intros [?|?]].
Qed.

(** X6: registering a template.  When [register_intent] returns, the
    template (with the handler given, if any) is stored under its name
    with its compiled patterns; a template of that name already there
    is replaced in place, a new one goes to the end of the scan order;
    templates of other names and their patterns are untouched. *)
Theorem register_intent_replaces (self self' : IntentRecognizer) (i : Intent)
    (h : option Handler) :
  register_intent self i h = (self', Ok tt) ->
  (name i, with_handler i h) ∈ intents self' /\
  (exists cs, compile_all (patterns i) = Ok cs /\
              compiled_patterns self' !! name i = Some cs) /\
  map fst (intents self') =
    (if bool_decide (name i ∈ map fst (intents self))
     then map fst (intents self)
     else (map fst (intents self) ++ [name i])%list) /\
  (forall k, k <> name i ->
     (forall i0, (k, i0) ∈ intents self' <-> (k, i0) ∈ intents self) /\
     compiled_patterns self' !! k = compiled_patterns self !! k).
Proof.
  unfold register_intent. rewrite with_handler_name.
  assert (Hp : patterns (with_handler i h) = patterns i) by by destruct h.
  rewrite Hp. destruct (compile_all (patterns i)) as [cs|e]; [|done].
  intros [= <-]. cbn [intents compiled_patterns].
  split; [apply dict_set_here|]. split.
  { exists cs. split; [done|]. by rewrite lookup_insert_eq. }
  split; [apply dict_set_keys|].
  intros k Hne. split.
  - intros i0. by apply dict_set_other.
  - by rewrite lookup_insert_ne.
Qed.

Lemma try_intents_app (self : IntentRecognizer) (text : string)
    (l1 l2 : list (string * Intent)) (acc : result Best) :
  fold_left (fun acc entry => b <- acc ;; try_intent self text b entry) (l1 ++ l2) acc =
  fold_left (fun acc entry => b <- acc ;; try_intent self text b entry) l2
    (fold_left (fun acc entry => b <- acc ;; try_intent self text b entry) l1 acc).
Proof. apply fold_left_app. Qed.

(** X7: a registration that raises leaves the recognizer unusable.
    When compiling the patterns of a template with a new name raises,
    the template is stored all the same, without compiled patterns, and
    every later [parse_intent] raises [KeyError] with that name. *)
Theorem failed_registration_breaks_parsing (self self' : IntentRecognizer)
    (i : Intent) (h : option Handler) (e : PyExn) (text : string) :
  registered self ->
  name i ∉ map fst (intents self) ->
  register_intent self i h = (self', Raise e) ->
  (name i, with_handler i h) ∈ intents self' /\
  compiled_patterns self' !! name i = None /\
  parse_intent self' text = Raise (exn KeyError ("'" +:+ name i +:+ "'")).
Proof.
  intros Hreg Hnew. unfold register_intent. rewrite with_handler_name.
  destruct (compile_all (patterns (with_handler i h))) as [cs|e']; [done|].
  intros [= <- <-]. cbn [intents compiled_patterns].
  destruct (registered_invariant self Hreg) as (Hnd & Hname & Hdom).
  assert (Hnone : compiled_patterns self !! name i = None).
  { destruct (compiled_patterns self !! name i) eqn:Hc; [|done].
    exfalso. apply Hnew, Hdom. by eexists. }
  assert (Hlist : dict_set (name i) (with_handler i h) (intents self) =
                  (intents self ++ [(name i, with_handler i h)])%list).
  { clear -Hnew. induction (intents self) as [|[k v] d IH]; [done|]. cbn in *.
    apply not_elem_of_cons in Hnew as [Hne Hnew].
    destruct (String.eqb (name i) k) eqn:Hk.
    - by apply String.eqb_eq in Hk.
    - by rewrite IH. }
  split; [apply dict_set_here|]. split; [done|].
  unfold parse_intent. cbn [intents compiled_patterns]. rewrite Hlist.
  change (fold_left _ (intents self ++ [(name i, with_handler i h)]) (Ok (None, 0%Q)))
    with (fold_left (fun acc entry =>
                       b <- acc ;;
                       try_intent (mkRecognizer
                                     (dict_set (name i) (with_handler i h) (intents self))
                                     (compiled_patterns self)) text b entry)
            (intents self ++ [(name i, with_handler i h)]) (@Ok Best (None, 0%Q))).
  rewrite Hlist, fold_left_app.
  rewrite (try_intents_pick _ text (intents self) (None, 0%Q)).
  - cbn. unfold try_intent. cbn. by rewrite Hnone.
  - intros entry Hin. cbn. by apply (registered_compiled self Hreg).
Qed.

Lemma compile_all_app_raise (pre post : list string) (p : string) (e : PyExn) :
  (forall q, q ∈ pre -> is_ok (re_compile q) = true) ->
  re_compile p = Raise e ->
  compile_all (pre ++ p :: post) = Raise e.
Proof.
  intros Hpre Hp. induction pre as [|q pre IH]; cbn.
  - by rewrite Hp.
  - destruct (re_compile q) as [c|e'] eqn:Hq.
    + cbn. rewrite IH; [done|]. intros q' Hq'. apply Hpre. by apply list_elem_of_further.
    + specialize (Hpre q (list_elem_of_here _ _)). by rewrite Hq in Hpre.
Qed.

(** X8: compiling the patterns of a template is all or nothing.  It
    returns one compiled pattern per pattern, in order, when each of
    them compiles, and otherwise raises the error of the first pattern
    that does not. *)
Theorem compile_all_first_error (ps : list string) :
  match compile_all ps with
  | Ok cs => Forall2 (fun p c => re_compile p = Ok c) ps cs
  | Raise e =>
      exists pre p post,
        ps = (pre ++ p :: post)%list /\
        (forall q, q ∈ pre -> is_ok (re_compile q) = true) /\
        re_compile p = Raise e
  end.
Proof.
  induction ps as [|p ps IH]; cbn; [by constructor|].
  destruct (re_compile p) as [c|e] eqn:Hp; cbn.
  - destruct (compile_all ps) as [cs|e]; cbn.
    + by constructor.
    + destruct IH as (pre & p' & post & -> & Hpre & Hp').
      exists (p :: pre), p', post. split; [done|]. split; [|done].
      intros q [->|Hq]%elem_of_cons; [by rewrite Hp|by apply Hpre].
  - exists [], p, ps. split; [done|]. split; [|done].
    intros q Hq. by apply elem_of_nil in Hq.
Qed.

End Registry.

Section Validation.

Context {R : Runtime}.

Lemma validate_loop_no_patterns (d : gmap string PyVal)
    (ps : list (string * IntentParameter)) (acc : list string) :
  (forall k p, (k, p) ∈ ps -> pattern_truthy (validation_pattern p) = false) ->
  validate_loop d ps (Ok acc) = Ok (acc ++ missing_entries d ps)%list.
Proof.
  revert acc. induction ps as [|[k p] ps IH]; intros acc Hno.
  - unfold missing_entries. cbn. by rewrite app_nil_r.
  - unfold validate_loop. cbn [fold_left rbind fst snd].
    unfold validate_one. rewrite (Hno k p (list_elem_of_here _ _)), andb_false_r.
    unfold missing_entries. cbn [List.filter fst snd].
    destruct (required p && is_none (dict_get d k)); cbn [map].
    + fold (missing_entries d ps).
      change (fold_left _ ps (Ok (acc ++ [missing_msg k])%list))
        with (validate_loop d ps (Ok (acc ++ [missing_msg k])%list)).
      rewrite IH.
      * by rewrite <- app_assoc.
      * intros k' p' Hin. apply (Hno k' p'). by apply list_elem_of_further.
    + fold (missing_entries d ps).
      change (fold_left _ ps (Ok acc)) with (validate_loop d ps (Ok acc)).
      apply IH. intros k' p' Hin. apply (Hno k' p'). by apply list_elem_of_further.
Qed.

(** X9: validation of a template without validation patterns (every
    template of the default catalogue) never raises, and reports
    exactly the required parameters that have no value, one message
    each, in the order of the template's parameters. *)
Theorem validation_without_patterns (pi : ParsedIntent) :
  (forall k p, (k, p) ∈ parameters (intent pi) ->
     pattern_truthy (validation_pattern p) = false) ->
  validation_errors pi =
    Ok (map (fun entry => missing_msg (fst entry))
          (List.filter
             (fun entry => required (snd entry)
                           && is_none (dict_get (extracted_params pi) (fst entry)))
             (parameters (intent pi)))).
Proof.
  intros Hno. unfold validation_errors.
  by rewrite (validate_loop_no_patterns _ _ [] Hno).
Qed.

End Validation.

Section Calling.

Context {R : Runtime}.

Lemma parse_intent_fold (self : IntentRecognizer) (text : string) :
  registered self ->
  parse_intent self text = Ok (fst (fold_left pick (candidates self text) (None, 0%Q))).
Proof.
  intros Hreg.
  change (parse_intent self text)
    with (best <- fold_left (fun acc entry => b <- acc ;; try_intent self text b entry)
                    (intents self) (@Ok Best (None, 0%Q)) ;;
          Ok (fst best)).
  by rewrite (try_intents_pick self text (intents self) (None, 0%Q)
                (registered_compiled self Hreg)).
Qed.

(** On a recognizer in use, what [parse_intent] returns: nothing when
    the text has no match, else a candidate of confidence 0.70 or more. *)
Lemma parse_intent_cases (self : IntentRecognizer) (text : string) :
  registered self ->
  (matches self text = [] /\ parse_intent self text = Ok None) \/
  (matches self text <> [] /\
   exists pi, parse_intent self text = Ok (Some pi) /\ (0.7 <= confidence pi)%Q).
Proof.
  intros Hreg. rewrite (parse_intent_fold self text Hreg).
  destruct (fold_pick (candidates self text) None 0%Q)
    as [[Hsame Hle]|(before & pi & after & Hsplit & Hfold & _)].
  - left. rewrite Hsame. split; [|done].
    destruct (matches self text) as [|im ims] eqn:Hm; [done|].
    exfalso. unfold candidates in Hle. rewrite Hm in Hle.
    specialize (Hle (candidate text im) (list_elem_of_here _ _)).
    destruct (candidate_confidence text im) as [Hlo _].
    apply (Qle_not_lt _ _ (Qle_trans _ _ _ Hlo Hle)). by unfold Qlt.
  - right. rewrite Hfold. split.
    + intros Hnil. unfold candidates in Hsplit. rewrite Hnil in Hsplit. by destruct before.
    + exists pi. split; [done|].
      assert (Hin : pi ∈ candidates self text).
      { rewrite Hsplit. apply elem_of_app. right. apply list_elem_of_here. }
      unfold candidates in Hin. apply list_elem_of_fmap in Hin as (im & -> & _).
      apply candidate_confidence.
Qed.

Lemma gate_open (c : Q) : (0.7 <= c)%Q -> Qgtb c 0.6 = true.
Proof.
  intros H. apply Qgtb_lt. apply Qlt_le_trans with 0.7%Q; [by unfold Qlt|done].
Qed.

(** X10: the threshold of the caller never rejects.  On a recognizer in
    use, [_handle_intent_automation] answers that it could not
    understand the request exactly when no pattern of any template
    matches the message: a parsed intent always passes the test
    [confidence > 0.6]. *)
Theorem not_understood_iff_no_match (self : IntentRecognizer) (message : string) :
  registered self ->
  resp_message (_handle_intent_automation self message) = not_understood <->
  matches self message = [].
Proof.
  intros Hreg. unfold _handle_intent_automation.
  destruct (parse_intent_cases self message Hreg) as [[Hnil Hp]|[Hsome (pi & Hp & Hc)]];
    rewrite Hp; cbn [rbind].
  - done.
  - rewrite (gate_open _ Hc). split; [|done]. intros Hmsg. exfalso.
    destruct (dict_index (execute_intent pi) "success") as [ok|e]; cbn [rbind] in Hmsg.
    + destruct (truthy ok);
        destruct (dict_index (execute_intent pi) "message") as [msg|e];
        cbn in Hmsg; discriminate Hmsg.
    + cbn in Hmsg. discriminate Hmsg.
Qed.

(** X11: the failures of [execute_intent] do not reach the user.  Its
    own failure dictionaries (no handler, parameter validation failed,
    handler raised) have an [error] and no [message]; the caller reads
    [result['message']], and what it returns is the [KeyError] of that
    lookup, whatever the error was. *)
Theorem execute_failure_reported_as_key_error (self : IntentRecognizer)
    (message : string) (pi : ParsedIntent) (err : string) :
  registered self ->
  parse_intent self message = Ok (Some pi) ->
  execute_intent pi = failure err ->
  _handle_intent_automation self message =
    mkResponse false "Error processing automation request: 'message'" None.
Proof.
  intros Hreg Hp Hfail. unfold _handle_intent_automation. rewrite Hp. cbn [rbind].
  destruct (parse_intent_cases self message Hreg) as [[_ Hp']|[_ (pi' & Hp' & Hc)]];
    rewrite Hp in Hp'; [done|]. injection Hp' as <-.
  rewrite (gate_open _ Hc), Hfail. unfold dict_index.
  rewrite failure_success. cbn [rbind truthy].
  by rewrite failure_no_message.
Qed.

End Calling.

Lemma registered_screenshot (h : option (@Handler decimal_runtime)) :
  @registered decimal_runtime
    (fst (@register_intent decimal_runtime (mkRecognizer [] ∅) (screenshot_intent None) h)).
Proof.
  destruct h as [h|].
  - apply (@registered_next decimal_runtime (mkRecognizer [] ∅) (screenshot_intent None)
             (Some h)); [apply registered_init | reflexivity].
  - apply (@registered_next decimal_runtime (mkRecognizer [] ∅) (screenshot_intent None)
             None); [apply registered_init | reflexivity].
Qed.

Lemma registered_invariant_witness :
  NoDup (map fst (intents screenshot_recognizer)) /\
  (forall k i, (k, i) ∈ intents screenshot_recognizer -> k = name i) /\
  (forall k, is_Some (compiled_patterns screenshot_recognizer !! k) <->
             k ∈ map fst (intents screenshot_recognizer)).
Proof.
  apply (@registered_invariant decimal_runtime screenshot_recognizer).
  apply (registered_screenshot None).
Defined.

(** Registering [take_screenshot] again, with a handler, keeps its place. *)
Lemma register_intent_replaces_witness :
  map fst (intents saving_recognizer) = ["take_screenshot"] /\
  map fst (intents (fst (@register_intent decimal_runtime saving_recognizer
                           (screenshot_intent None) (Some failing_handler))))
    = ["take_screenshot"].
Proof.
  split; [reflexivity|].
  apply (@register_intent_replaces decimal_runtime saving_recognizer
           (fst (@register_intent decimal_runtime saving_recognizer
                   (screenshot_intent None) (Some failing_handler)))
           (screenshot_intent None) (Some failing_handler)).
  reflexivity.
Defined.

Lemma failed_registration_witness :
  parse_intent
    (fst (@register_intent decimal_runtime screenshot_recognizer broken_intent None))
    "take a screenshot"
  = Raise (mkExn KeyError "'broken'").
Proof.
  apply (@failed_registration_breaks_parsing decimal_runtime screenshot_recognizer
           (fst (@register_intent decimal_runtime screenshot_recognizer broken_intent None))
           broken_intent None (mkExn ReError unbalanced_msg) "take a screenshot").
  - apply (registered_screenshot None).
  - cbn. intros H%list_elem_of_singleton. discriminate H.
  - reflexivity.
Defined.

Lemma validation_without_patterns_witness :
  validation_errors copy_parsed =
    Ok ["Required parameter 'source' is missing";
        "Required parameter 'destination' is missing"].
Proof.
  apply (@validation_without_patterns decimal_runtime copy_parsed).
  intros k p Hin. cbn in Hin.
  apply elem_of_cons in Hin as [[= -> ->]|Hin]; [reflexivity|].
  apply list_elem_of_singleton in Hin as [= -> ->]. reflexivity.
Defined.

Lemma not_understood_witness :
  resp_message (_handle_intent_automation screenshot_recognizer "system status")
    = not_understood <->
  matches screenshot_recognizer "system status" = [].
Proof.
  apply (@not_understood_iff_no_match decimal_runtime screenshot_recognizer "system status").
  apply (registered_screenshot None).
Defined.

Lemma execute_failure_witness :
  _handle_intent_automation failing_recognizer "take a screenshot" =
    mkResponse false "Error processing automation request: 'message'" None.
Proof.
  apply (@execute_failure_reported_as_key_error decimal_runtime failing_recognizer
           "take a screenshot"
           (candidate "take a screenshot"
              (with_handler (screenshot_intent None) (Some failing_handler),
               mkMatch "take a screenshot" "take a screenshot" {[ "save_path" := None ]}))
           "screen capture failed").
  - apply (registered_screenshot (Some failing_handler)).
  - reflexivity.
  - reflexivity.
Defined.

Example handle_intent_success :
  _handle_intent_automation saving_recognizer "take a screenshot" =
    mkResponse true "✅ **take_screenshot**: Screenshot saved to clipboard"
      (Some ("take_screenshot",
             confidence (candidate "take a screenshot"
               (with_handler (screenshot_intent None) (Some saving_handler),
                mkMatch "take a screenshot" "take a screenshot" {[ "save_path" := None ]})),
             <["message" := VStr "Screenshot saved to clipboard"]>
               (<["success" := VBool true]> ∅))).
Proof. reflexivity. Qed.

End IntentMore.

(** ** More on the code sandbox *)

Module SandboxMore.

Import Sandbox SandboxFacts.

Lemma check_alias_app (v : list string) (a : alias) :
  check_alias v a = (v ++ check_alias [] a)%list.
Proof. unfold check_alias. case_bool_decide; [done|by rewrite app_nil_r]. Qed.

Lemma check_aliases_app (names : list alias) (v : list string) :
  fold_left check_alias names v = (v ++ fold_left check_alias names [])%list.
Proof.
  revert v. induction names as [|a names IH]; intros v; cbn.
  - by rewrite app_nil_r.
  - rewrite (IH (check_alias v a)), (IH (check_alias [] a)), (check_alias_app v a).
    by rewrite app_assoc.
Qed.

Lemma check_import_from_app (v : list string) (module : option string) :
  check_import_from v module = (v ++ check_import_from [] module)%list.
Proof.
  unfold check_import_from. destruct module as [m|]; [|by rewrite app_nil_r].
  destruct (String.eqb m ""); [by rewrite app_nil_r|].
  case_bool_decide; [done|by rewrite app_nil_r].
Qed.

Lemma check_call_app (v : list string) (func : node) :
  check_call v func = (v ++ check_call [] func)%list.
Proof.
  unfold check_call. destruct func; try by rewrite app_nil_r.
  case_bool_decide; [done|by rewrite app_nil_r].
Qed.

Lemma check_attribute_app (v : list string) (attr : string) :
  check_attribute v attr = (v ++ check_attribute [] attr)%list.
Proof.
  unfold check_attribute. destruct (Str.startswith attr "_"); [done|by rewrite app_nil_r].
Qed.

Lemma fold_visit_app (children : list node) (v : list string) :
  Forall (fun c => forall v, visit c v = (v ++ visit c [])%list) children ->
  fold_left (fun acc c => visit c acc) children v =
  (v ++ fold_left (fun acc c => visit c acc) children [])%list.
Proof.
  intros Hall. revert v. induction Hall as [|c children Hc _ IH]; intros v.
  - cbn. by rewrite app_nil_r.
  - cbn. rewrite (IH (visit c v)), (IH (visit c [])), Hc. by rewrite app_assoc.
Qed.

(** X12: the validator only appends.  The violations after visiting a
    tree are those before it followed by the violations of the tree
    alone: what is reported for a tree does not depend on what was
    visited before it. *)
Theorem visit_appends (n : node) (v : list string) :
  visit n v = (v ++ visit n [])%list.
Proof.
  revert v.
  induction n as [names | module names | func args IHf IHa | value attr IHv | id
                  | children IHc] using node_induction; intros v; cbn.
  - apply check_aliases_app.
  - apply check_import_from_app.
  - rewrite (fold_visit_app args _ IHa), (IHf (check_call v func)), (check_call_app v func).
    rewrite (fold_visit_app args (visit func (check_call [] func)) IHa).
    rewrite (IHf (check_call [] func)). by rewrite !app_assoc.
  - rewrite (IHv (check_attribute v attr)), (check_attribute_app v attr).
    rewrite (IHv (check_attribute [] attr)). by rewrite app_assoc.
  - by rewrite app_nil_r.
  - by apply fold_visit_app.
Qed.

Lemma fold_visit_elem (children : list node) (x : string) :
  x ∈ fold_left (fun acc c => visit c acc) children [] ->
  exists c, c ∈ children /\ x ∈ visit c [].
Proof.
  induction children as [|c children IH]; cbn.
  - by intros ?%elem_of_nil.
  - rewrite (fold_visit_app children (visit c [])).
    + intros [H|H]%elem_of_app.
      * exists c. split; [apply list_elem_of_here|done].
      * destruct (IH H) as (c' & Hin & Hx). exists c'. split; [|done].
        by apply list_elem_of_further.
    + apply Forall_forall. intros c' _ w. apply visit_appends.
Qed.

Lemma own_violations_visited (n : node) (x : string) (v : list string) :
  x ∈ own_violations n -> x ∈ visit n v.
Proof.
  intros Hx. rewrite visit_appends. apply elem_of_app. right.
  destruct n as [names | module names | func args | value attr | id | children]; cbn in *.
  - done.
  - done.
  - apply visit_children_keep. rewrite visit_appends. apply elem_of_app. by left.
  - rewrite visit_appends. apply elem_of_app. by left.
  - done.
  - by apply elem_of_nil in Hx.
Qed.

Lemma subtree_visited (n t : node) (x : string) :
  subtree n t -> (forall v, x ∈ visit n v) -> forall v, x ∈ visit t v.
Proof.
  intros Hsub Hn. induction Hsub as [| func args _ IH | func args c Hin _ IH
                                      | value attr _ IH | children c Hin _ IH]; intros v.
  - apply Hn.
  - cbn. apply visit_children_keep, IH.
  - cbn. by apply (visit_children_found args c).
  - cbn. apply IH.
  - cbn. by apply (visit_children_found children c).
Qed.

(** X13: what the validator reports for a tree is exactly what the
    nodes of the tree give rise to by themselves: a violation is
    reported if and only if some node of the tree, at any depth, is a
    call of a prohibited function by name, an access to an attribute
    starting with an underscore, or an import of a prohibited module. *)
Theorem violations_are_own (t : node) (x : string) :
  x ∈ visit t [] <-> exists n, subtree n t /\ x ∈ own_violations n.
Proof.
  split.
  - revert x.
    induction t as [names | module names | func args IHf IHa | value attr IHv | id
                    | children IHc] using node_induction; intros x; cbn.
    + intros H. exists (Import names). split; [apply subtree_here|done].
    + intros H. exists (ImportFrom module names). split; [apply subtree_here|done].
    + rewrite (fold_visit_app args).
      2:{ apply Forall_forall. intros c _ w. apply visit_appends. }
      rewrite (visit_appends func). rewrite !elem_of_app.
      intros [[H|H]|H].
      * exists (Call func args). split; [apply subtree_here|done].
      * destruct (IHf x H) as (n & Hsub & Hn). exists n. split; [|done].
        by apply subtree_func.
      * destruct (fold_visit_elem args x H) as (c & Hin & Hc).
        rewrite Forall_forall in IHa.
        destruct (IHa c Hin x Hc) as (n & Hsub & Hn). exists n. split; [|done].
        by apply (subtree_arg n func args c).
    + rewrite (visit_appends value). rewrite elem_of_app.
      intros [H|H].
      * exists (Attribute value attr). split; [apply subtree_here|done].
      * destruct (IHv x H) as (n & Hsub & Hn). exists n. split; [|done].
        by apply subtree_value.
    + by intros ?%elem_of_nil.
    + intros H. destruct (fold_visit_elem children x H) as (c & Hin & Hc).
      rewrite Forall_forall in IHc.
      destruct (IHc c Hin x Hc) as (n & Hsub & Hn). exists n. split; [|done].
      by apply (subtree_child n children c).
  - intros (n & Hsub & Hn). apply (subtree_visited n t x Hsub).
    intros v. by apply own_violations_visited.
Qed.

Section Running.

Context {P : Python}.

Lemma invalid_has_error (code : string) :
  valid (_validate_code code) = false ->
  exists msg, validation_error (_validate_code code) = Some msg.
Proof.
  unfold _validate_code, validation_failure, invalid.
  repeat case_match; cbn; try done; by eexists.
Qed.


(** X15: how [execute_code] ends.  It succeeds exactly when the text is
    valid and [exec] finishes; a failure always has an error and
    reports neither output nor variables; and an invalid text is not
    run: the heap is the one before the call and the error is the one
    of the validation. *)
Theorem execute_code_outcomes (self : SafeExecutionEnvironment) (code : string)
    (vars : option (gmap string Value)) (h : Heap) :
  let r := fst (execute_code self code vars h) in
  let run := py_exec code (exec_namespace self vars) h (timeout self) in
  (success r = true <-> valid (_validate_code code) = true /\ status run = Finished) /\
  (success r = false -> error r <> None /\ variables r = ∅ /\ output r = "") /\
  (valid (_validate_code code) = false ->
     snd (execute_code self code vars h) = h /\
     error r = validation_error (_validate_code code)).
Proof.
  cbn zeta. unfold execute_code.
  destruct (valid (_validate_code code)) eqn:Hv; cbn [negb].
  - destruct (status (py_exec code (exec_namespace self vars) h (timeout self))) eqn:Hs;
      cbn [fst snd success error variables output].
    + split; [done|]. split; done.
    + split; [split; [done|by intros [_ ?]]|]. split; [|done]. by intros _.
    + split; [split; [done|by intros [_ ?]]|]. split; [|done]. intros _.
      split; [|done]. unfold with_stderr. by repeat case_match.
  - cbn [fst snd success error variables output].
    split; [split; [done|by intros [? _]]|]. split; [|done].
    intros _. destruct (invalid_has_error code Hv) as [msg ->]. done.
Qed.

(** The variables map, name by name. *)
Lemma extract_lookup (self : SafeExecutionEnvironment) (h : Heap)
    (namespace : gmap string Value) (name : string) :
  _extract_user_variables self h namespace !! name =
  match namespace !! name with
  | Some value =>
      if Str.startswith name "_"
         || bool_decide (is_Some (safe_namespace self !! name))
         || is_module_or_function value
      then None
      else Some (if json_serializable h value then value
                 else str_value (py_str h value))
  | None => None
  end.
Proof.
  unfold _extract_user_variables. revert name.
  apply (map_fold_weak_ind
           (fun (r : gmap string Value) (m : gmap string Value) =>
              forall name : string,
                r !! name =
                match m !! name with
                | Some value =>
                    if Str.startswith name "_"
                       || bool_decide (is_Some (safe_namespace self !! name))
                       || is_module_or_function value
                    then None
                    else Some (if json_serializable h value then value
                               else str_value (py_str h value))
                | None => None
                end)).
  - intros name. by rewrite !lookup_empty.
  - intros k value m r Hfresh IH name. unfold extract_entry.
    rewrite StrFacts.startswith_dunder.
    assert (Hdom : bool_decide (k ∈ dom (safe_namespace self))
                   = bool_decide (is_Some (safe_namespace self !! k))).
    { apply bool_decide_ext. apply elem_of_dom. }
    rewrite Hdom.
    destruct (decide (k = name)) as [->|Hne].
    + rewrite lookup_insert_eq.
      destruct (Str.startswith name "_"); cbn.
      { by rewrite IH, Hfresh. }
      destruct (bool_decide (is_Some (safe_namespace self !! name))); cbn.
      { by rewrite IH, Hfresh. }
      destruct (is_module_or_function value); cbn.
      { by rewrite IH, Hfresh. }
      destruct (json_serializable h value); by rewrite lookup_insert_eq.
    + rewrite (lookup_insert_ne m) by done. rewrite <- IH.
      destruct (negb _ && negb _ && negb _); [|done].
      destruct (json_serializable h value); by rewrite lookup_insert_ne.
Qed.

Lemma extracted_name_clean (self : SafeExecutionEnvironment) (h : Heap)
    (namespace : gmap string Value) (name : string) :
  is_Some (_extract_user_variables self h namespace !! name) ->
  Str.startswith name "_" = false /\ safe_namespace self !! name = None.
Proof.
  rewrite extract_lookup. destruct (namespace !! name) as [value|]; [|by intros [? ?]].
  destruct (Str.startswith name "_"); cbn; [by intros [? ?]|].
  case_bool_decide as Hs; cbn; [by intros [? ?]|].
  intros _. split; [done|]. destruct (safe_namespace self !! name) eqn:Hn; [|done].
  exfalso. apply Hs. by eexists.
Qed.

Lemma result_name_clean (self : SafeExecutionEnvironment) (code : string)
    (vars : option (gmap string Value)) (h : Heap) (name : string) :
  is_Some (variables (fst (execute_code self code vars h)) !! name) ->
  Str.startswith name "_" = false /\ safe_namespace self !! name = None.
Proof.
  unfold execute_code. destruct (negb (valid (_validate_code code))); cbn.
  - rewrite lookup_empty. by intros [? ?].
  - destruct (status _); cbn.
    + apply extracted_name_clean.
    + rewrite lookup_empty. by intros [? ?].
    + rewrite lookup_empty. by intros [? ?].
Qed.

Lemma exec_namespace_lookup (self : SafeExecutionEnvironment)
    (vs : gmap string Value) (k : string) :
  exec_namespace self (Some vs) !! k =
  match vs !! k with
  | Some v => Some v
  | None => safe_namespace self !! k
  end.
Proof.
  unfold exec_namespace. case_bool_decide as He.
  - subst vs. by rewrite lookup_empty.
  - rewrite lookup_union. destruct (vs !! k), (safe_namespace self !! k); done.
Qed.

(** X16: what a run leaves in the session is there for the next run.
    After a successful persistent run, every variable it reported is
    bound, to the same value, in the namespace the next run starts
    from. *)
Theorem persistent_variables_visible (self : CodeExecutor) (code : string) (h : Heap)
    (name : string) (v : Value) :
  let r := fst (fst (_execute_persistent self code h)) in
  let self' := snd (fst (_execute_persistent self code h)) in
  success r = true ->
  variables r !! name = Some v ->
  session_variables self' !! name = Some v /\
  exec_namespace (environment self') (Some (session_variables self')) !! name = Some v.
Proof.
  cbn zeta. unfold _execute_persistent.
  destruct (execute_code (environment self) code (Some (session_variables self)) h)
    as [r h'].
  destruct (success r) eqn:Hs; cbn [fst snd success variables environment session_variables];
    [|intros Hs'; congruence].
  intros _ Hv.
  assert (Hsession : (variables r ∪ session_variables self) !! name = Some v).
  { by apply lookup_union_Some_l. }
  split; [done|]. by rewrite exec_namespace_lookup, Hsession.
Qed.

End Running.

Section Dispatch.

Context {P : Python}.

Variable run_subprocess : string -> Z -> Subprocess.

(** X17: the session never shadows the safe namespace.  If the session
    binds no name of the safe namespace and none starting with an
    underscore, the same holds after [execute] in any mode; no variable
    leaves the session; and the namespace the next run starts from
    binds every name of the safe namespace to its safe value. *)
Theorem session_stays_clean (self : CodeExecutor) (code mode : string) (h : Heap) :
  session_clean self ->
  let self' := snd (fst (execute run_subprocess self code mode h)) in
  session_clean self' /\
  environment self' = environment self /\
  (forall name, is_Some (session_variables self !! name) ->
                is_Some (session_variables self' !! name)) /\
  (forall name, is_Some (safe_namespace (environment self') !! name) ->
     exec_namespace (environment self') (Some (session_variables self')) !! name
       = safe_namespace (environment self') !! name).
Proof.
  intros Hclean. cbn zeta.
  assert (Hsafe : forall s : CodeExecutor, session_clean s ->
            forall name, is_Some (safe_namespace (environment s) !! name) ->
              exec_namespace (environment s) (Some (session_variables s)) !! name
                = safe_namespace (environment s) !! name).
  { intros s Hs name [x Hx]. rewrite exec_namespace_lookup.
    destruct (session_variables s !! name) as [v|] eqn:Hv; [|done].
    destruct (Hs name) as [_ Hnone]; [by eexists|]. congruence. }
  assert (Hsame : session_clean self /\ environment self = environment self /\
            (forall name, is_Some (session_variables self !! name) ->
                          is_Some (session_variables self !! name)) /\
            (forall name, is_Some (safe_namespace (environment self) !! name) ->
               exec_namespace (environment self) (Some (session_variables self)) !! name
                 = safe_namespace (environment self) !! name)).
  { split; [done|]. split; [done|]. split; [done|]. by apply Hsafe. }
  unfold execute.
  destruct (String.eqb mode "safe").
  { unfold _execute_safe. by destruct (execute_code _ _ _ _). }
  destruct (String.eqb mode "isolated"); [done|].
  destruct (String.eqb mode "persistent"); [|done].
  unfold _execute_persistent.
  pose proof (result_name_clean (environment self) code (Some (session_variables self)) h)
    as Hres.
  destruct (execute_code (environment self) code (Some (session_variables self)) h)
    as [r h'].
  destruct (success r); [|done]. cbn [fst snd] in *.
  assert (Hclean' : session_clean
            (mkExecutor (environment self) (variables r ∪ session_variables self))).
  { intros name [v Hv]. cbn in *. apply lookup_union_Some_raw in Hv as [Hv|[_ Hv]].
    - apply Hres. by eexists.
    - apply Hclean. by eexists. }
  split; [done|]. split; [done|]. split.
  - intros name [v Hv]. cbn.
    destruct (variables r !! name) as [w|] eqn:Hw.
    + exists w. by apply lookup_union_Some_l.
    + exists v. rewrite lookup_union_r; done.
  - by apply (Hsafe _ Hclean').
Qed.


(** X19: the isolated mode.  The run succeeds exactly when the process
    exits with status 0; and a process that exits with another status
    without writing to its standard error is reported as a failure
    with no error at all. *)
Theorem isolated_outcomes (self : CodeExecutor) (code : string) :
  let r := _execute_isolated run_subprocess self code in
  let run := run_subprocess code (timeout (environment self)) in
  (iso_success r = true <-> exists out err, run = Exited 0 out err) /\
  (iso_success r = false /\ iso_error r = None <->
     exists rc out, rc <> 0%Z /\ run = Exited rc out "").
Proof.
  cbn zeta. unfold _execute_isolated.
  destruct (run_subprocess code (timeout (environment self))) as [rc out err| |e]; cbn.
  - split.
    + split.
      * intros ->%Z.eqb_eq. by exists out, err.
      * intros (? & ? & [= -> _ _]). done.
    + split.
      * intros [Hrc Herr]. apply Z.eqb_neq in Hrc.
        destruct (String.eqb err "") eqn:He; [|done].
        apply String.eqb_eq in He as ->. by exists rc, out.
      * intros (rc' & out' & Hne & [= -> -> ->]). split; [by apply Z.eqb_neq|done].
  - split; [split; [done|by intros (? & ? & ?)]|].
    split; [by intros [_ ?]|by intros (? & ? & _ & ?)].
  - split; [split; [done|by intros (? & ? & ?)]|].
    split; [by intros [_ ?]|by intros (? & ? & _ & ?)].
Qed.

End Dispatch.

Lemma persistent_variables_visible_witness :
  let self' := snd (fst (@_execute_persistent mini_python mini_executor prog_bind_list ∅)) in
  session_variables self' !! "x" = Some (MList 0) /\
  exec_namespace (environment self') (Some (session_variables self')) !! "x"
    = Some (MList 0).
Proof.
  exact (@persistent_variables_visible mini_python mini_executor prog_bind_list ∅
           "x" (MList 0) eq_refl eq_refl).
Defined.

Lemma session_stays_clean_witness :
  let self1 :=
    snd (fst (@execute mini_python mini_subprocess mini_executor prog_bind_list
                "persistent" ∅)) in
  session_variables self1 !! "x" = Some (MList 0) /\
  session_clean self1 /\
  exec_namespace (environment self1) (Some (session_variables self1)) !! "print"
    = Some (MObject "<bound method _safe_print>").
Proof.
  assert (H0 : @session_clean mini_python mini_executor).
  { intros name [v Hv]. change (session_variables mini_executor) with
      (∅ : gmap string MiniValue) in Hv. by rewrite lookup_empty in Hv. }
  destruct (@session_stays_clean mini_python mini_subprocess mini_executor
              prog_bind_list "persistent" ∅ H0) as (Hclean & _ & _ & Hsafe).
  split; [reflexivity|]. split; [exact Hclean|].
  etrans; [apply (Hsafe "print"); by eexists|reflexivity].
Defined.

Section Imports.

Context {P : Python}.

Variable builtin_import : string -> result Value.

Lemma append_assoc (a b c : string) : (a +:+ b) +:+ c = a +:+ (b +:+ c).
Proof.
  induction a as [|x a IH]; [reflexivity|]. exact (f_equal (String x) IH).
Qed.

Lemma prefix_split (p s : string) :
  String.prefix p s = true <-> exists rest, s = p +:+ rest.
Proof.
  split.
  - revert s. induction p as [|a p IH]; intros s H.
    + by exists s.
    + destruct s as [|b s]; [done|]. cbn in H.
      destruct (ascii_dec a b) as [->|]; [|done].
      destruct (IH s H) as [rest ->]. by exists rest.
  - intros [rest ->]. apply StrFacts.prefix_app.
Qed.

Lemma submodule_of_split (name m : string) :
  submodule_of name m = true <-> exists rest, name = m +:+ "." +:+ rest.
Proof.
  unfold submodule_of, Str.startswith. rewrite prefix_split.
  split; intros [rest ->]; exists rest.
  - apply append_assoc.
  - symmetry. apply append_assoc.
Qed.

(** X20: which imports the hook lets through.  A module is imported,
    by the builtin [__import__], exactly when its name is on the list
    of allowed modules or is an allowed name followed by a dot and
    anything; every other name raises [ImportError], and the builtin is
    not called. *)
Theorem safe_import_allowed (self : SafeExecutionEnvironment) (name : string) :
  let allowed :=
    name ∈ allowed_modules self \/
    exists m rest, m ∈ allowed_modules self /\ name = m +:+ "." +:+ rest in
  (allowed -> _safe_import builtin_import self name = builtin_import name) /\
  (~ allowed ->
     _safe_import builtin_import self name =
       Raise (mkExn ImportError ("Module '" +:+ name +:+ "' is not allowed in safe mode"))).
Proof.
  cbn zeta. unfold _safe_import.
  case_bool_decide as Hin.
  { split; [done|]. intros Hn. destruct Hn. by left. }
  destruct (existsb (submodule_of name) (allowed_modules self)) eqn:Hex.
  - split; [done|]. intros Hn. destruct Hn. right.
    apply existsb_exists in Hex as (m & Hm & Hsub).
    apply submodule_of_split in Hsub as [rest ->].
    exists m, rest. split; [|done]. by apply list_elem_of_In.
  - split; [|done]. intros [Hm|(m & rest & Hm & ->)]; [done|].
    assert (Htrue : existsb (submodule_of (m +:+ "." +:+ rest)) (allowed_modules self) = true).
    { apply existsb_exists. exists m. split; [by apply list_elem_of_In|].
      apply submodule_of_split. by exists rest. }
    congruence.
Qed.

End Imports.

Lemma safe_import_allowed_witness :
  let import := fun name : string => Ok (MModule name) in
  @_safe_import mini_python import mini_environment "os.path" = Ok (MModule "os.path") /\
  @_safe_import mini_python import mini_environment "ossaudiodev" =
    Raise (mkExn ImportError "Module 'ossaudiodev' is not allowed in safe mode").
Proof.
  intros import. split.
  - apply (proj1 (@safe_import_allowed mini_python import mini_environment "os.path")).
    right. exists "os", "path". split; [apply list_elem_of_here|reflexivity].
  - apply (proj2 (@safe_import_allowed mini_python import mini_environment "ossaudiodev")).
    intros [Hin|(m & rest & Hin & Heq)].
    + cbn in Hin. repeat (apply elem_of_cons in Hin as [Hin|Hin]; [discriminate Hin|]).
      by apply elem_of_nil in Hin.
    + cbn in Hin.
      repeat (apply elem_of_cons in Hin as [->|Hin]; [discriminate Heq|]).
      by apply elem_of_nil in Hin.
Defined.

Section Namespace.

Context {P : Python}.

Variable safe_builtins : gmap string Value.
Variable builtin_attr : string -> option Value.
Variable bound_method : string -> Value.

Lemma fold_add_builtin_lookup (l : list string) (ns : gmap string Value) (k : string) :
  is_Some (fold_left (add_builtin builtin_attr) l ns !! k) <->
  is_Some (ns !! k) \/ (k ∈ l /\ is_Some (builtin_attr k)).
Proof.
  revert ns. induction l as [|a l IH]; intros ns; cbn [fold_left].
  - split; [by left|]. intros [?|[Hin _]]; [done|]. by apply elem_of_nil in Hin.
  - rewrite IH, elem_of_cons. unfold add_builtin.
    destruct (builtin_attr a) as [f|] eqn:Ha.
    + rewrite lookup_insert_is_Some. split.
      * intros [[->|[_ ?]]|[? ?]]; [right|by left|right].
        -- split; [by left|]. by rewrite Ha.
        -- split; [by right|done].
      * intros [?|[[->|?] ?]].
        -- destruct (decide (a = k)); left; [by left|by right].
        -- left. by left.
        -- right. done.
    + split.
      * intros [?|[? ?]]; [by left|right]. split; [by right|done].
      * intros [?|[[->|?] Hk]]; [by left| |by right].
        rewrite Ha in Hk. by destruct Hk.
Qed.

Lemma create_safe_namespace_names (name : string) :
  is_Some (_create_safe_namespace safe_builtins builtin_attr bound_method !! name) <->
  name ∈ hooks \/ is_Some (safe_builtins !! name) \/
  (name ∈ safe_functions /\ is_Some (builtin_attr name)).
Proof.
  unfold _create_safe_namespace, hooks.
  rewrite !lookup_insert_is_Some, fold_add_builtin_lookup, !elem_of_cons, elem_of_nil.
  split.
  - intros [->|[_ [->|[_ [->|[_ [->|[_ H]]]]]]]]; try (right; exact H);
      left; auto 6.
  - intros [[->|[->|[->|[->|[]]]]]|H].
    + destruct (decide ("help" = "__import__")); [by left|].
      right. split; [done|]. right. split; [done|]. right. split; [done|]. by left.
    + right. split; [done|]. right. split; [done|]. by left.
    + right. split; [done|]. by left.
    + by left.
    + destruct (decide ("help" = name)); [by left|]. right. split; [done|].
      destruct (decide ("input" = name)); [by left|]. right. split; [done|].
      destruct (decide ("print" = name)); [by left|]. right. split; [done|].
      destruct (decide ("__import__" = name)); [by left|]. right. done.
Qed.

(** X21: the names of the safe namespace are never reported as user
    variables.  The namespace [_create_safe_namespace] builds binds
    exactly the four hooks, the names of RestrictedPython's builtins
    and those of the listed functions that [__builtins__] has; and in
    an environment that holds it, whatever a program binds to one of
    these names is left out of the result. *)
Theorem safe_names_never_reported (self : SafeExecutionEnvironment) (h : Heap)
    (namespace : gmap string Value) (name : string) :
  safe_namespace self = _create_safe_namespace safe_builtins builtin_attr bound_method ->
  (name ∈ hooks \/ is_Some (safe_builtins !! name) \/
   (name ∈ safe_functions /\ is_Some (builtin_attr name))) ->
  _extract_user_variables self h namespace !! name = None.
Proof.
  intros Hns Hname. apply create_safe_namespace_names in Hname.
  rewrite extract_lookup. destruct (namespace !! name) as [value|]; [|done].
  rewrite Hns. rewrite (bool_decide_eq_true_2 _ Hname).
  by rewrite orb_true_r.
Qed.

End Namespace.

Lemma safe_names_never_reported_witness :
  @_extract_user_variables mini_python mini_environment ∅
    (<["print" := MInt 2]> (<["n" := MInt 3]> ∅)) !! "print" = None.
Proof.
  apply (@safe_names_never_reported mini_python ∅ (fun _ => None)
           (fun name => MObject ("<bound method " +:+ name +:+ ">"))
           mini_environment ∅ (<["print" := MInt 2]> (<["n" := MInt 3]> ∅)) "print").
  - reflexivity.
  - left. apply list_elem_of_further, list_elem_of_here.
Defined.

Lemma execute_code_outcomes_witness :
  let h : gmap nat (list Z) := <[0%nat := [1%Z]]> ∅ in
  snd (@execute_code mini_python mini_environment "x = " None h) = h /\
  error (fst (@execute_code mini_python mini_environment "x = " None h))
    = Some "Syntax error: invalid syntax".
Proof.
  intros h.
  pose proof (@execute_code_outcomes mini_python mini_environment "x = " None h) as H.
  cbn zeta in H. destruct H as (_ & _ & H).
  destruct (H eq_refl) as [Hheap Herror]. split; [exact Hheap|].
  etrans; [exact Herror|reflexivity].
Defined.


Lemma isolated_outcomes_witness :
  let r := @_execute_isolated mini_python mini_subprocess mini_executor prog_exit in
  iso_success r = false /\ iso_error r = None.
Proof.
  pose proof (@isolated_outcomes mini_python mini_subprocess mini_executor prog_exit) as H.
  cbn zeta in H. destruct H as [_ [_ H]]. apply H.
  exists 3%Z, "". split; [discriminate|reflexivity].
Defined.

End SandboxMore.

(** ** The configuration *)

Module ConfigFacts.

Import Config.

Lemma digit_not_upper (c : ascii) :
  Str.is_digit c = true -> Str.lower_ascii c = c.
Proof.
  unfold Str.is_digit, Str.lower_ascii, Str.is_upper.
  intros [H1 H2]%andb_prop. apply Nat.leb_le in H1, H2.
  destruct (65 <=? nat_of_ascii c)%nat eqn:H3; [|done].
  apply Nat.leb_le in H3. lia.
Qed.

Lemma all_digits_lower (s : string) :
  all_digits s = true -> Str.lower s = s.
Proof.
  induction s as [|c s IH]; [done|]. cbn.
  intros [Hc Hs]%andb_prop. by rewrite (digit_not_upper c Hc), (IH Hs).
Qed.

Lemma isdigit_all_digits (s : string) : isdigit s = true -> all_digits s = true.
Proof. by destruct s. Qed.

Lemma append_cons (c : ascii) (s t : string) : String c s +:+ t = String c (s +:+ t).
Proof. reflexivity. Qed.

Lemma append_nil (t : string) : EmptyString +:+ t = t.
Proof. reflexivity. Qed.

Lemma split_nonempty (sep : ascii) (s : string) : split sep s <> [].
Proof.
  induction s as [|c s IH]; [done|]. cbn.
  destruct (Ascii.eqb c sep); [done|]. by destruct (split sep s).
Qed.

Lemma split_field (sep : ascii) (field rest : string) :
  mentions sep field = false ->
  split sep (field +:+ String sep rest) = field :: split sep rest.
Proof.
  induction field as [|c field IH]; intros H.
  - rewrite append_nil. cbn. by rewrite Ascii.eqb_refl.
  - cbn in H. apply orb_false_elim in H as [Hc Hf].
    rewrite append_cons. cbn [split]. rewrite Hc, (IH Hf). done.
Qed.

Lemma split_last (sep : ascii) (field : string) :
  mentions sep field = false -> split sep field = [field].
Proof.
  induction field as [|c field IH]; intros H; [done|].
  cbn in H. apply orb_false_elim in H as [Hc Hf].
  cbn [split]. by rewrite Hc, (IH Hf).
Qed.

Lemma join_cons (sep x y : string) (l : list string) :
  Str.join sep (x :: y :: l) = x +:+ sep +:+ Str.join sep (y :: l).
Proof. reflexivity. Qed.

(** [split] undoes [join]. *)
Lemma split_join (names : list string) :
  names <> [] ->
  Forall (fun m => mentions "," m = false) names ->
  split "," (Str.join "," names) = names.
Proof.
  induction names as [|x [|y l] IH]; intros Hne Hall; [done| |].
  - apply Forall_cons in Hall as [Hx _]. by apply split_last.
  - apply Forall_cons in Hall as [Hx Hl].
    rewrite join_cons.
    change ("," +:+ Str.join "," (y :: l)) with (String "," (Str.join "," (y :: l))).
    rewrite (split_field _ _ _ Hx), IH; done.
Qed.

Section Settings.

Context {N : Primitives}.

Lemma convert_digits (value : string) :
  isdigit value = true ->
  int_of_str value = Ok (int_of_digits value) ->
  (x <- _convert_type value ;; py_int x) = Ok (int_of_digits value).
Proof.
  intros Hd Hint. unfold _convert_type.
  rewrite (all_digits_lower value (isdigit_all_digits value Hd)).
  case_bool_decide as Ht.
  { apply elem_of_cons in Ht as [->|Ht]; [discriminate Hd|].
    apply elem_of_cons in Ht as [->|Ht]; [discriminate Hd|].
    apply list_elem_of_singleton in Ht as ->. reflexivity. }
  case_bool_decide as Hf.
  { apply elem_of_cons in Hf as [->|Hf]; [discriminate Hd|].
    apply elem_of_cons in Hf as [->|Hf]; [discriminate Hd|].
    apply list_elem_of_singleton in Hf as ->. reflexivity. }
  by rewrite Hd, Hint.
Qed.

(** X22: a number in the environment is read as that number.  When
    [SANDBOX_TIMEOUT] is set to a string of digits that [int] reads as
    the number they write, [sandbox_timeout] is that number, whatever
    the files hold: also for "0" and "1", which [_convert_type] turns
    into booleans first. *)
Theorem sandbox_timeout_of_digits (self : Config) (value : string) :
  environ self !! "SANDBOX_TIMEOUT" = Some value ->
  isdigit value = true ->
  int_of_str value = Ok (int_of_digits value) ->
  sandbox_timeout self = Ok (int_of_digits value).
Proof.
  intros Henv Hd Hint. unfold sandbox_timeout, get.
  change (upper "SANDBOX_TIMEOUT") with "SANDBOX_TIMEOUT".
  rewrite Henv. by apply convert_digits.
Qed.

Lemma convert_word (value : string) :
  Str.lower value ∉ ["false"; "no"; "0"] ->
  isdigit value = false ->
  parse_float value = None ->
  value <> "" ->
  (x <- _convert_type value ;; Ok (py_bool x)) = Ok true.
Proof.
  intros Hf Hd Hp Hne. unfold _convert_type, _is_float.
  case_bool_decide; [done|].
  rewrite (bool_decide_eq_false_2 _ Hf), Hd, Hp. cbn.
  destruct (String.eqb_spec value ""); done.
Qed.

(** X23: a switch is on for any word that is not one of the three
    negative ones.  When [ENABLE_CODE_EXECUTION] is set to a non-empty
    string that is neither "false", "no" or "0" in any case nor a
    number, [enable_code_execution] is true; so is [debug_mode] for
    [DEBUG_MODE]. *)
Theorem switch_on_for_other_words (self : Config) (key value : string) :
  environ self !! key = Some value ->
  Str.lower value ∉ ["false"; "no"; "0"] ->
  isdigit value = false ->
  parse_float value = None ->
  value <> "" ->
  (key = "ENABLE_CODE_EXECUTION" -> enable_code_execution self = Ok true) /\
  (key = "ENABLE_DESKTOP_AUTOMATION" -> enable_desktop_automation self = Ok true) /\
  (key = "DEBUG_MODE" -> debug_mode self = Ok true).
Proof.
  intros Henv Hf Hd Hp Hne.
  pose proof (convert_word value Hf Hd Hp Hne) as Hb.
  split; [|split]; intros ->.
  - unfold enable_code_execution, get.
    change (upper "ENABLE_CODE_EXECUTION") with "ENABLE_CODE_EXECUTION".
    by rewrite Henv.
  - unfold enable_desktop_automation, get.
    change (upper "ENABLE_DESKTOP_AUTOMATION") with "ENABLE_DESKTOP_AUTOMATION".
    by rewrite Henv.
  - unfold debug_mode, get.
    change (upper "DEBUG_MODE") with "DEBUG_MODE".
    by rewrite Henv.
Qed.

(** X24: the list of modules survives the trip through the
    environment.  When [ALLOWED_MODULES] is set to names joined by
    commas, none of them with a comma or with blanks around it, and the
    whole is not read as a boolean or a number, [allowed_modules] is the
    list of these names. *)
Theorem allowed_modules_round_trip (self : Config) (names : list string) :
  names <> [] ->
  Forall (fun m => mentions "," m = false /\ Str.strip m = m) names ->
  environ self !! "ALLOWED_MODULES" = Some (Str.join "," names) ->
  _convert_type (Str.join "," names) = Ok (SStr (Str.join "," names)) ->
  allowed_modules self = Ok (Names names).
Proof.
  intros Hne Hall Henv Hconv.
  assert (Hstrip : map Str.strip names = names).
  { clear Hne Henv Hconv. induction Hall as [|m l [_ Hm] _ IH]; [done|].
    cbn. by rewrite Hm, IH. }
  unfold allowed_modules, get.
  change (upper "ALLOWED_MODULES") with "ALLOWED_MODULES".
  rewrite Henv, Hconv. cbn [rbind].
  rewrite split_join; [|done|by eapply Forall_impl; [exact Hall|intros ? [? _]]].
  by rewrite Hstrip.
Qed.

Lemma lookup_files_raises (key : string) (default : Setting)
    (docs : list (string * Document)) :
  is_ok (lookup_files key default docs) = false <->
  exists pre doc post,
    map snd docs = (pre ++ doc :: post)%list /\
    forallb (silent key) pre = true /\ breaks key doc = true.
Proof.
  induction docs as [|[name doc] docs IH].
  - split; [done|]. intros (pre & doc & post & Heq & _). by destruct pre.
  - assert (Hstep : silent key doc = true ->
              (exists pre d post, map snd docs = (pre ++ d :: post)%list /\
                 forallb (silent key) pre = true /\ breaks key d = true) ->
              exists pre d post, map snd ((name, doc) :: docs) = (pre ++ d :: post)%list /\
                 forallb (silent key) pre = true /\ breaks key d = true).
    { intros Hs (pre & d & post & Heq & Hpre & Hd).
      exists (doc :: pre), d, post. cbn. rewrite Heq, Hs. done. }
    assert (Hback : breaks key doc = false ->
              (exists pre d post, map snd ((name, doc) :: docs) = (pre ++ d :: post)%list /\
                 forallb (silent key) pre = true /\ breaks key d = true) ->
              exists pre d post, map snd docs = (pre ++ d :: post)%list /\
                 forallb (silent key) pre = true /\ breaks key d = true).
    { intros Hb (pre & d & post & Heq & Hpre & Hd).
      destruct pre as [|d' pre]; cbn in Heq, Hpre.
      - injection Heq as <- _. congruence.
      - injection Heq as <- Heq. apply andb_prop in Hpre as [_ Hpre].
        by exists pre, d, post. }
    assert (Hhere : breaks key doc = true ->
              exists pre d post, map snd ((name, doc) :: docs) = (pre ++ d :: post)%list /\
                 forallb (silent key) pre = true /\ breaks key d = true).
    { intros Hb. by exists [], doc, (map snd docs). }
    assert (Hnot : silent key doc = false -> breaks key doc = false ->
              ~ exists pre d post, map snd ((name, doc) :: docs) = (pre ++ d :: post)%list /\
                 forallb (silent key) pre = true /\ breaks key d = true).
    { intros Hs Hb (pre & d & post & Heq & Hpre & Hd).
      destruct pre as [|d' pre]; cbn in Heq, Hpre.
      - injection Heq as <- _. congruence.
      - injection Heq as <- _. apply andb_prop in Hpre as [Hpre _]. congruence. }
    destruct doc as [entries|s|items|type_name]; cbn [lookup_files].
    + destruct (entries !! key) as [v|] eqn:Hv.
      * split; [done|]. intros H. exfalso. revert H. apply Hnot; [|done].
        cbn. apply bool_decide_eq_false_2. by rewrite Hv.
      * rewrite IH. split; [apply Hstep|by apply Hback].
        cbn. by apply bool_decide_eq_true_2.
    + destruct (Str.contains key s) eqn:Hc.
      * split; [intros _; by apply Hhere|done].
      * rewrite IH. split; [apply Hstep|by apply Hback]. cbn. by rewrite Hc.
    + case_bool_decide as Hin.
      * split; [intros _; apply Hhere; cbn; by apply bool_decide_eq_true_2|done].
      * rewrite IH. split; [apply Hstep|apply Hback].
        -- cbn. by apply bool_decide_eq_true_2.
        -- cbn. by apply bool_decide_eq_false_2.
    + split; [intros _; by apply Hhere|done].
Qed.

Lemma convert_type_raises (value : string) :
  is_ok (_convert_type value) = false <->
  (Str.lower value ∉ ["true"; "yes"; "1"; "false"; "no"; "0"]) /\
  isdigit value = true /\ is_ok (int_of_str value) = false.
Proof.
  unfold _convert_type.
  change ["true"; "yes"; "1"; "false"; "no"; "0"]
    with (["true"; "yes"; "1"] ++ ["false"; "no"; "0"])%list.
  rewrite elem_of_app.
  case_bool_decide as Ht; [split; [done|intros [Hn _]; destruct Hn; by left]|].
  case_bool_decide as Hf; [split; [done|intros [Hn _]; destruct Hn; by right]|].
  destruct (isdigit value).
  - destruct (int_of_str value); cbn.
    + split; [done|by intros (_ & _ & ?)].
    + split; [|done]. intros _. split; [|done]. by intros [?|?].
  - split; [|by intros (_ & ? & _)].
    unfold _is_float. by destruct (parse_float value).
Qed.

(** X25: when [get] raises.  With the variable in the environment, it
    raises exactly when the value is a string of digits, other than "0"
    and "1", that [int] refuses.  Without it, it raises exactly when,
    among the documents in the order they were loaded, one on which the
    test or the lookup of the key fails comes before any mapping that
    holds the key.  The default plays no part. *)
Theorem get_raises_iff (self : Config) (key : string) (default : Setting) :
  is_ok (get self key default) = false <->
  match environ self !! upper key with
  | Some value =>
      (Str.lower value ∉ ["true"; "yes"; "1"; "false"; "no"; "0"]) /\
      isdigit value = true /\ is_ok (int_of_str value) = false
  | None =>
      exists pre doc post,
        map snd (_config_data self) = (pre ++ doc :: post)%list /\
        forallb (silent key) pre = true /\ breaks key doc = true
  end.
Proof.
  unfold get. destruct (environ self !! upper key) as [v|].
  - apply convert_type_raises.
  - apply lookup_files_raises.
Qed.

End Settings.

Lemma sandbox_timeout_of_digits_witness :
  @sandbox_timeout recorded_primitives sample_config = Ok 45%Z.
Proof.
  exact (@sandbox_timeout_of_digits recorded_primitives sample_config "45"
           eq_refl eq_refl eq_refl).
Defined.

Lemma switch_on_for_other_words_witness :
  @enable_code_execution recorded_primitives sample_config = Ok true.
Proof.
  apply (proj1 (@switch_on_for_other_words recorded_primitives sample_config
                  "ENABLE_CODE_EXECUTION" "off" eq_refl
                  ltac:(cbn; intros H;
                        repeat (apply elem_of_cons in H as [H|H]; [discriminate H|]);
                        by apply elem_of_nil in H)
                  eq_refl eq_refl ltac:(discriminate))).
  reflexivity.
Defined.

Lemma allowed_modules_round_trip_witness :
  @allowed_modules recorded_primitives sample_config = Ok (Names ["os"; "math"]).
Proof.
  apply (@allowed_modules_round_trip recorded_primitives sample_config ["os"; "math"]).
  - discriminate.
  - repeat constructor.
  - reflexivity.
  - reflexivity.
Defined.

Lemma get_raises_witness :
  is_ok (@get recorded_primitives broken_config "SANDBOX_TIMEOUT" (SInt 30)) = false.
Proof.
  apply (proj2 (@get_raises_iff recorded_primitives broken_config
                  "SANDBOX_TIMEOUT" (SInt 30))).
  exists [], (NotIterable "NoneType"),
    [Mapping (<["SANDBOX_TIMEOUT" := SInt 10]> ∅)].
  split; [reflexivity|]. split; reflexivity.
Defined.

End ConfigFacts.
